(** * nvidia_exporter: the nvidia-smi scrape loop

    A shallow embedding of [scrapeSmi] (nvidia_exporter.go) and of the
    library calls it makes, with the properties of its per-line
    processing.  Go strings are byte strings: they are Rocq [string]s,
    whose characters are the 8-bit [ascii].  A [float64] is Rocq's
    primitive binary64 [float]. *)

From Stdlib Require Import ZArith Ascii PrimFloat FloatOps SpecFloat Uint63.
From Stdlib Require Import DecimalString DecimalN.
From stdpp Require Import gmap strings.

Local Open Scope Z_scope.

(** ** Package [strings] and [bufio]: the calls made by [scrapeSmi] *)

Module strings.

(** [strings.HasPrefix(s, prefix)] *)
Fixpoint HasPrefix (s prefix : string) {struct prefix} : bool :=
  match prefix, s with
  | EmptyString, _ => true
  | String p prefix', String c s' => Ascii.eqb c p && HasPrefix s' prefix'
  | String _ _, EmptyString => false
  end.

(** [strings.Index(s, sep)]: the byte offset of the first instance of
    [sep] in [s]; Go's -1 is [None]. *)
Fixpoint Index (s sep : string) {struct s} : option nat :=
  if HasPrefix s sep then Some 0%nat
  else match s with
       | EmptyString => None
       | String _ s' => S <$> Index s' sep
       end.

(** [s[:m]] and [s[m:]], for [m] within the string. *)
Fixpoint slice_to (m : nat) (s : string) : string :=
  match m, s with
  | S m', String c s' => String c (slice_to m' s')
  | _, _ => EmptyString
  end.

Fixpoint slice_from (m : nat) (s : string) : string :=
  match m, s with
  | S m', String _ s' => slice_from m' s'
  | _, _ => s
  end.

(** The loop of [genSplit(s, sep, 0, -1)] for a non-empty [sep]:
    cut at the first instance of [sep], go on with what follows it.
    Go bounds the loop by [Count(s, sep)], itself at most [len(s)];
    [n] is that bound. *)
Fixpoint genSplit (n : nat) (s sep : string) : list string :=
  match n with
  | O => [s]
  | S n' =>
      match Index s sep with
      | None => [s]
      | Some m =>
          slice_to m s :: genSplit n' (slice_from (m + String.length sep) s) sep
      end
  end.

(** [strings.Split(s, sep)], [sep] not empty. *)
Definition Split (s sep : string) : list string :=
  genSplit (String.length s) s sep.

(** [strings.Join(elems, sep)] *)
Fixpoint Join (elems : list string) (sep : string) : string :=
  match elems with
  | [] => EmptyString
  | [e] => e
  | e :: elems' => e +:+ sep +:+ Join elems' sep
  end.

(** [strings.Contains(s, substr)] *)
Definition Contains (s substr : string) : bool :=
  match Index s substr with Some _ => true | None => false end.

End strings.

Module bufio.

(** [Reader.ReadBytes(delim)] on the bytes still to come from the
    stream: the bytes up to and including the first [delim], with
    what follows it; when the stream ends before a [delim], the bytes
    read and no rest (Go's [err == io.EOF]). *)
Fixpoint ReadBytes (delim : ascii) (stream : string) : string * option string :=
  match stream with
  | EmptyString => (EmptyString, None)
  | String c stream' =>
      if Ascii.eqb c delim then (String c EmptyString, Some stream')
      else let '(line, rest) := ReadBytes delim stream' in (String c line, rest)
  end.

End bufio.

(** The separator of the fields of a line. *)
Definition sep : string := ", ".

(** What [strings.Split(s, ", ")] computes, by recursion on [s]. *)
Fixpoint splitFields (s : string) : list string :=
  match s with
  | EmptyString => [EmptyString]
  | String c s' =>
      match s' with
      | String d s'' =>
          if Ascii.eqb c "," && Ascii.eqb d " " then EmptyString :: splitFields s''
          else match splitFields s' with
               | f :: fs => String c f :: fs
               | [] => [String c EmptyString]
               end
      | EmptyString => [String c EmptyString]
      end
  end.

(** ** [float64], [time.Duration] and [fmt]'s [%.0f] *)

(** [float64(z)] for an [int64] [z]. *)
Definition float64_of_int64 (z : Z) : float :=
  if z =? - 2 ^ 63 then (-9223372036854775808)%float
  else if z <? 0 then PrimFloat.opp (PrimFloat.of_uint63 (Uint63.of_Z (- z)))
  else PrimFloat.of_uint63 (Uint63.of_Z z).

Module time.

(** A [Duration] is an [int64] count of nanoseconds. *)
Definition Second : Z := 1000000000.

(** [Duration.Seconds]: [float64(d / Second) + float64(d % Second) / 1e9],
    Go's [/] and [%] truncating toward zero. *)
Definition Seconds (d : Z) : float :=
  let sec := Z.quot d Second in
  let nsec := Z.rem d Second in
  PrimFloat.add (float64_of_int64 sec)
    (PrimFloat.div (float64_of_int64 nsec) 1e9%float).

End time.

Module fmt.

(** The integer nearest to [m * 2^e], the even one of two that are as
    near: [strconv]'s rounding of the exact decimal expansion to no
    digit after the point. *)
Definition roundHalfEven (m : positive) (e : Z) : Z :=
  if 0 <=? e then Z.pos m * 2 ^ e
  else
    let d := 2 ^ (- e) in
    let q := Z.pos m / d in
    let r := Z.pos m mod d in
    if 2 * r <? d then q
    else if d <? 2 * r then q + 1
    else if Z.even q then q else q + 1.

(** The decimal digits of a natural number. *)
Definition digits (n : Z) : string :=
  NilZero.string_of_uint (N.to_uint (Z.to_N n)).

(** [fmt.Sprintf("%.0f", x)]: the sign when the sign bit is set
    (also of a zero), then the digits of the rounded magnitude. *)
Definition Sprintf_0f (x : float) : string :=
  match Prim2SF x with
  | S754_nan => "NaN"
  | S754_infinity s => if s then "-Inf" else "+Inf"
  | S754_zero s => if s then "-0" else "0"
  | S754_finite s m e => (if s then "-" else "") +:+ digits (roundHalfEven m e)
  end.

End fmt.

(** ** The metrics registry (package [prometheus]) and the process *)

(** [prometheus.Labels], a map from label names to label values; the
    program only builds one-entry maps. *)
Abbreviation Labels := (list (string * string)).

(** A time series: the metric's name and its labels with their values. *)
Abbreviation Series := (string * Labels)%type.

Inductive Event : Type :=
| EvRegister (name : string) (labelNames : list string)
| EvSet (name : string) (labels : Labels) (v : float)
| EvLog (msg : string)
| EvStart (args : list string).

(** What the process has done so far: the collectors registered, the
    current value of every gauge, and the effects in the order they
    happened. *)
Record World : Type := mkWorld {
  registered : list (string * list string);
  values : gmap Series float;
  events : list Event
}.

(** How a piece of the program ends: it returns, the process exits
    ([os.Exit], also through [log.Fatalf]), or it panics. *)
Inductive Outcome (A : Type) : Type :=
| Return (a : A) (w : World)
| Exit (code : Z) (w : World)
| Panicked (msg : string) (w : World).

Arguments Return {A} a w.
Arguments Exit {A} code w.
Arguments Panicked {A} msg w.

Definition M (A : Type) : Type := World -> Outcome A.

#[global] Instance M_ret : MRet M := fun A a w => Return a w.

#[global] Instance M_bind : MBind M := fun A B f m w =>
  match m w with
  | Return a w' => f a w'
  | Exit code w' => Exit code w'
  | Panicked msg w' => Panicked msg w'
  end.

(** The world in which an outcome leaves the process. *)
Definition worldOf {A : Type} (o : Outcome A) : World :=
  match o with
  | Return _ w | Exit _ w | Panicked _ w => w
  end.

Definition emit (e : Event) : M unit := fun w =>
  Return tt (mkWorld (registered w) (values w) (events w ++ [e])).

Definition panic {A : Type} (msg : string) : M A := fun w => Panicked msg w.

Module log.

Definition Printf (msg : string) : M unit := emit (EvLog msg).

(** [log.Fatalf]: the message, then [os.Exit(1)]. *)
Definition Fatalf {A : Type} (msg : string) : M A := fun w =>
  Exit 1 (mkWorld (registered w) (values w) (events w ++ [EvLog msg])).

End log.

Module prometheus.

Record GaugeOpts : Type := mkGaugeOpts { Name : string; Help : string }.

(** A gauge vector: its options and the names of its variable labels.
    Its children live in the world, one series per label values. *)
Record GaugeVec : Type := mkGaugeVec {
  opts : GaugeOpts;
  variableLabels : list string
}.

Definition NewGaugeVec (o : GaugeOpts) (labelNames : list string) : GaugeVec :=
  mkGaugeVec o labelNames.

Definition setValue (k : Series) (v : float) : M unit := fun w =>
  Return tt (mkWorld (registered w) (<[k := v]> (values w)) (events w)).

(** [NewGauge]: a gauge without labels, at 0. *)
Definition NewGauge (o : GaugeOpts) : M Series :=
  let k := (Name o, []) in
  setValue k 0%float ;; mret k.

(** [Gauge.Set] *)
Definition Set_ (k : Series) (v : float) : M unit :=
  setValue k v ;; emit (EvSet k.1 k.2 v).

(** [MustRegister]: panics when a collector of that name is there. *)
Definition MustRegister (name : string) (labelNames : list string) : M unit :=
  fun w =>
    if bool_decide (name ∈ (registered w).*1)
    then Panicked ("duplicate metrics collector registration attempted") w
    else Return tt (mkWorld (registered w ++ [(name, labelNames)]) (values w)
                      (events w ++ [EvRegister name labelNames])).

Fixpoint get (labels : Labels) (name : string) : option string :=
  match labels with
  | [] => None
  | (n, v) :: labels' => if String.eqb n name then Some v else get labels' name
  end.

(** The label values in the order of the variable labels, when the
    names of [labels] are those of the variable labels. *)
Fixpoint labelValues (names : list string) (labels : Labels) : option Labels :=
  match names with
  | [] => Some []
  | n :: names' =>
      v ← get labels n;
      vs ← labelValues names' labels;
      Some ((n, v) :: vs)
  end.

(** [GaugeVec.With(labels)]: the child for these label values, created
    at 0 when it is new; panics when the number or the names of the
    labels are not those of the variable labels. *)
Definition With (vec : GaugeVec) (labels : Labels) : M Series :=
  if negb (length labels =? length (variableLabels vec))%nat
  then panic "inconsistent label cardinality"
  else match labelValues (variableLabels vec) labels with
       | None => panic "label name not found"
       | Some vs =>
           let k := (Name (opts vec), vs) in
           fun w =>
             match values w !! k with
             | Some _ => Return k w
             | None => (setValue k 0%float ;; mret k) w
             end
       end.

End prometheus.

(** ** nvidia_exporter.go *)

Record nvidiaStat : Type := mkStat {
  name : string;
  metric : prometheus.GaugeVec
}.

Definition stats : list nvidiaStat := [
  mkStat "memory.used"
    (prometheus.NewGaugeVec
       (prometheus.mkGaugeOpts "nvidia_memory_used_megabytes"
          "Total memory allocated by active contexts") ["gpu"]);
  mkStat "memory.total"
    (prometheus.NewGaugeVec
       (prometheus.mkGaugeOpts "nvidia_memory_total_megabytes"
          "Total installed GPU memory") ["gpu"]);
  mkStat "utilization.gpu"
    (prometheus.NewGaugeVec
       (prometheus.mkGaugeOpts "nvidia_gpu_utilization_percent"
          "Percent of time over the past sample period during which one or more kernels was executing on the GPU")
       ["gpu"]);
  mkStat "utilization.memory"
    (prometheus.NewGaugeVec
       (prometheus.mkGaugeOpts "nvidia_memory_utilization_percent"
          "Percent of time over the past sample period during which global (device) memory was being read or written")
       ["gpu"]);
  mkStat "temperature.gpu"
    (prometheus.NewGaugeVec
       (prometheus.mkGaugeOpts "nvidia_temperature_celsius"
          "Core GPU temperature") ["gpu"]);
  mkStat "power.draw"
    (prometheus.NewGaugeVec
       (prometheus.mkGaugeOpts "nvidia_power_draw_watts"
          "The last measured power draw for the entire board") ["gpu"])
].

(** The options of the gauge [lastUpdated] of [scrapeSmi]. *)
Definition lastUpdatedOpts : prometheus.GaugeOpts :=
  prometheus.mkGaugeOpts "nvidia_last_updated_time"
    "Last time that we read output from nvidia-smi".

(** The series of [lastUpdated]: no label. *)
Definition lastUpdated : Series := (prometheus.Name lastUpdatedOpts, []).

(** The series of a statistic for a device: [stat.metric] with
    [Labels{"gpu": gpu}]. *)
Definition seriesOf (stat : nvidiaStat) (gpu : string) : Series :=
  (prometheus.Name (prometheus.opts (metric stat)), [("gpu", gpu)]).

(** [data[i]], a panic when [i] is out of range. *)
Definition index (data : list string) (i : nat) : M string :=
  match data !! i with
  | Some x => mret x
  | None => panic "index out of range"
  end.

(** [line[:len(line)-1]], a panic on the empty slice. *)
Definition dropLast (line : string) : M string :=
  match String.length line with
  | O => panic "slice bounds out of range [:-1]"
  | S n => mret (strings.slice_to n line)
  end.

(** [for i, x := range xs { body }], from index [i]. *)
Fixpoint forRange {A : Type} (i : nat) (xs : list A) (body : nat -> A -> M unit) : M unit :=
  match xs with
  | [] => mret tt
  | x :: xs' => body i x ;; forRange (S i) xs' body
  end.

Section Sampler.

(** [strconv.ParseFloat(s, 64)]: the value and the error, [None] for
    Go's [nil], else the text of the error. *)
Variable ParseFloat : string -> float * option string.

(** The body of the loop over [stats] in [scrapeSmi]. *)
Definition setStat (gpu : string) (data : list string) (i : nat) (stat : nvidiaStat) : M unit :=
  raw ← index data (i + 1);
  let '(value, err) := ParseFloat raw in
  match err with
  | Some e =>
      log.Fatalf ("error converting " +:+ name stat +:+ " value (" +:+ raw
                  +:+ ") to float: " +:+ e)
  | None =>
      child ← prometheus.With (metric stat) [("gpu", gpu)];
      prometheus.Set_ child value
  end.

(** What [scrapeSmi] does with the fields of a line, from the check of
    their number on; [line] is the line without its end. *)
Definition setStats (line : string) (data : list string) : M unit :=
  if negb (length data =? length stats + 1)%nat
  then log.Fatalf ("invalid nvidia-smi output: " +:+ line)
  else
    gpu ← index data 0;
    forRange 0 stats (setStat gpu data).

(** One turn of the loop of [scrapeSmi], after a read without error:
    [now] is [time.Now().Unix()], [line] what [ReadBytes] returned. *)
Definition scrapeLine (now : Z) (line : string) : M unit :=
  prometheus.Set_ lastUpdated (float64_of_int64 now) ;;
  line ← dropLast line;
  let data := strings.Split line ", " in
  setStats line data.

(** The loop of [scrapeSmi] on what the subprocess writes before its
    output ends; [clock n] is the time at the [n]-th read.  The loop
    only ends by leaving the process; [None] when [fuel] turns were
    not enough to get there. *)
Fixpoint scrapeLoop (fuel : nat) (clock : nat -> Z) (n : nat) (stdout : string)
    (w : World) : option (Outcome unit) :=
  match fuel with
  | O => None
  | S fuel' =>
      match bufio.ReadBytes "010" stdout with
      | (_, None) => Some (log.Fatalf "error reading nvidia-smi output: EOF" w)
      | (line, Some rest) =>
          match scrapeLine (clock n) line w with
          | Return _ w' => scrapeLoop fuel' clock (S n) rest w'
          | o => Some o
          end
      end
  end.

(** [scrapeSmi] up to [cmd.Start()]: the arguments of the command. *)
Definition scrapeStart (interval : Z) : M (list string) :=
  lastUpdated' ← prometheus.NewGauge lastUpdatedOpts;
  prometheus.MustRegister lastUpdated'.1 [] ;;
  forRange 0 stats (fun _ stat =>
    prometheus.MustRegister (prometheus.Name (prometheus.opts (metric stat)))
      (prometheus.variableLabels (metric stat))) ;;
  let queryValues := "index" :: map name stats in
  let queryOpt := "--query-gpu=" +:+ strings.Join queryValues "," in
  let seconds := fmt.Sprintf_0f (time.Seconds interval) in
  if String.eqb seconds "0"
  then log.Fatalf "interval must be at least 1 second"
  else
    let args := ["nvidia-smi"; "-l"; seconds; "--format=csv,noheader,nounits"; queryOpt] in
    log.Printf ("Running " +:+ strings.Join args " ") ;;
    emit (EvStart args) ;;
    mret args.

(** [scrapeSmi()] *)
Definition scrapeSmi (fuel : nat) (interval : Z) (clock : nat -> Z) (stdout : string)
    (w : World) : option (Outcome unit) :=
  match scrapeStart interval w with
  | Return _ w' => scrapeLoop fuel clock 0 stdout w'
  | Exit code w' => Some (Exit code w')
  | Panicked msg w' => Some (Panicked msg w')
  end.

End Sampler.

(** The world at the start of the process. *)
Definition world0 : World := mkWorld [] ∅ [].

(** A [ParseFloat] to run the program on examples.  It reads the
    plain decimals that nvidia-smi prints: an optional sign, digits,
    optionally a point and more digits, at most 15 digits in all; on
    these it computes what [strconv.ParseFloat] does on its exact path,
    the integer of the digits divided by the power of ten.  It rejects
    every other string ([strconv] reads more: exponents, hexadecimal,
    infinities) with the error of [strconv] for a string that is no
    number, such as [abc]. *)
Module decimal.

Definition isDigit (c : ascii) : bool :=
  (48 <=? nat_of_ascii c)%nat && (nat_of_ascii c <=? 57)%nat.

Fixpoint mantissa (s : string) (acc : Z) : option Z :=
  match s with
  | EmptyString => Some acc
  | String c s' =>
      if isDigit c then mantissa s' (10 * acc + (Z.of_nat (nat_of_ascii c) - 48))
      else None
  end.

Definition syntaxError (s : string) : string :=
  "strconv.ParseFloat: parsing " +:+ String "034" (s +:+ String "034" ": invalid syntax").

Definition ParseFloat (s : string) : float * option string :=
  let '(neg, body) :=
    match s with
    | String c r =>
        if Ascii.eqb c "-" then (true, r)
        else if Ascii.eqb c "+" then (false, r) else (false, s)
    | EmptyString => (false, s)
    end in
  let '(int, frac) :=
    match strings.Index body "." with
    | Some m => (strings.slice_to m body, Some (strings.slice_from (m + 1) body))
    | None => (body, None)
    end in
  let frac' := default EmptyString frac in
  let ok :=
    negb (String.length int =? 0)%nat
    && negb (bool_decide (frac = Some EmptyString))
    && (String.length int + String.length frac' <=? 15)%nat in
  match (if ok then mantissa (int +:+ frac') 0 else None) with
  | None => (0%float, Some (syntaxError s))
  | Some m =>
      let f := PrimFloat.of_uint63 (Uint63.of_Z m) in
      let f := if neg then PrimFloat.opp f else f in
      let p := PrimFloat.of_uint63 (Uint63.of_Z (10 ^ Z.of_nat (String.length frac'))) in
      ((if (String.length frac' =? 0)%nat then f else PrimFloat.div f p), None)
  end.

End decimal.

(** src/unnamed/part_000: the revision of [scrapeSmi] whose loop has no
    check on the number of fields. *)
Module Earlier.

Section Sampler.

Variable ParseFloat : string -> float * option string.

Definition scrapeLine (now : Z) (line : string) : M unit :=
  prometheus.Set_ lastUpdated (float64_of_int64 now) ;;
  line ← dropLast line;
  let data := strings.Split line ", " in
  gpu ← index data 0;
  forRange 0 stats (setStat ParseFloat gpu data).

End Sampler.

End Earlier.

(** ** Vocabulary of the statements *)

(** The line feed that ends a line. *)
Definition newline : string := String "010" "".

(** A double quote. *)
Definition quote : string := String "034" "".

(** The world after [Set] on a series. *)
Definition write (k : Series) (v : float) (w : World) : World :=
  mkWorld (registered w) (<[k := v]> (values w)) (events w ++ [EvSet k.1 k.2 v]).

(** The world after a message on the log. *)
Definition logged (msg : string) (w : World) : World :=
  mkWorld (registered w) (values w) (events w ++ [EvLog msg]).

(** The world after the gauges of the statistics [svs], each with its
    value, were set for the device [gpu], in order. *)
Definition writes (gpu : string) (svs : list (nvidiaStat * float)) (w : World) : World :=
  foldl (fun w sv => write (seriesOf sv.1 gpu) sv.2 w) w svs.

(** The message of [scrapeSmi] on a field that is no float. *)
Definition convertError (stat : nvidiaStat) (raw e : string) : string :=
  "error converting " +:+ name stat +:+ " value (" +:+ raw +:+ ") to float: " +:+ e.

(** Whether a piece of the program ended in a panic. *)
Definition panicked {A : Type} (o : Outcome A) : bool :=
  match o with Panicked _ _ => true | _ => false end.

(** The device a line names: its first field. *)
Definition deviceOf (body : string) : string :=
  hd EmptyString (strings.Split body ", ").

(** The lines of a stream that end in a line feed, without it. *)
Fixpoint Lines (stream : string) : list string :=
  match stream with
  | EmptyString => []
  | String c stream' =>
      if Ascii.eqb c "010" then EmptyString :: Lines stream'
      else match Lines stream' with
           | [] => []
           | l :: ls => String c l :: ls
           end
  end.

(** The name under which a statistic is exposed. *)
Definition metricName (stat : nvidiaStat) : string :=
  prometheus.Name (prometheus.opts (metric stat)).

(** An effect that a line for the device [gpu] may have after the
    time stamp: setting the gauge of a statistic for [gpu], or a
    message on the log. *)
Definition lineEffect (gpu : string) (e : Event) : Prop :=
  match e with
  | EvSet n l _ => exists stat, stat ∈ stats /\ n = metricName stat /\ l = [("gpu", gpu)]
  | EvLog _ => True
  | _ => False
  end.

(** The arguments of the command that [scrapeSmi] starts. *)
Definition commandArgs (seconds : string) : list string :=
  ["nvidia-smi"; "-l"; seconds; "--format=csv,noheader,nounits";
   "--query-gpu=index,memory.used,memory.total,utilization.gpu,utilization.memory,temperature.gpu,power.draw"].

(** The world once [scrapeSmi] has registered its gauges. *)
Definition worldRegistered : World :=
  mkWorld
    (("nvidia_last_updated_time", []) :: map (fun s => (metricName s, ["gpu"])) stats)
    {[ lastUpdated := 0%float ]}
    (EvRegister "nvidia_last_updated_time" []
       :: map (fun s => EvRegister (metricName s) ["gpu"]) stats).

(** The world once [scrapeSmi] has started the command. *)
Definition worldStarted (seconds : string) : World :=
  mkWorld (registered worldRegistered) (values worldRegistered)
    (events worldRegistered
       ++ [EvLog ("Running " +:+ strings.Join (commandArgs seconds) " ");
           EvStart (commandArgs seconds)]).


(** What a line for the device [gpu] may do to the world: it adds
    effects, never drops a series, and leaves every series alone that is
    not a statistic of [gpu]. *)
Definition lineStep (gpu : string) (w w' : World) : Prop :=
  registered w' = registered w
  /\ (exists rest, events w' = events w ++ rest /\ Forall (lineEffect gpu) rest)
  /\ (forall k, is_Some (values w !! k) -> is_Some (values w' !! k))
  /\ (forall k, (forall stat, stat ∈ stats -> k <> seriesOf stat gpu) ->
        values w' !! k = values w !! k).

(** The line of the specification's example. *)
Definition exampleLine : string := "0, 1024, 8192, 15, 3, 42, 120.5".

(** A clock that advances by the default interval. *)
Definition exampleClock (n : nat) : Z := 1700000000 + 5 * Z.of_nat n.

(** The output of a subprocess that reports two devices and ends. *)
Definition exampleOutput : string :=
  exampleLine +:+ newline +:+ "1, 512, 8192, 10, 2, 40, 99.5" +:+ newline.

(** A string without line feed. *)
Definition noNewline (s : string) : bool := negb (strings.Contains s newline).

(** An effect of the loop of [scrapeSmi]: a gauge is set or a message
    is logged; nothing is registered, no command is started. *)
Definition loopEffect (e : Event) : Prop :=
  match e with
  | EvSet _ _ _ | EvLog _ => True
  | _ => False
  end.

(** The value that [writes gpu svs] leaves in the series [k], when it
    sets it: that of the last statistic in [svs] whose series for [gpu]
    is [k]. *)
Definition lastWrite (gpu : string) (svs : list (nvidiaStat * float)) (k : Series)
    : option float :=
  foldl (fun acc sv => if decide (seriesOf sv.1 gpu = k) then Some sv.2 else acc)
    None svs.

Section SplitFacts.

Import strings.

Lemma HasPrefix_length (p s : string) :
  HasPrefix s p = true -> (String.length p <= String.length s)%nat.
Proof.
  revert s. induction p as [|a p IH]; intros [|b t]; simpl; try lia; try discriminate.
  intros [_ H]%andb_true_iff. apply IH in H. lia.
Qed.

Lemma Index_bound (s p : string) (m : nat) :
  Index s p = Some m -> (m + String.length p <= String.length s)%nat.
Proof.
  revert m. induction s as [|c s IH]; intros m; cbn [Index].
  - destruct (HasPrefix "" p) eqn:Hp; [|discriminate].
    apply HasPrefix_length in Hp. intros [= <-]. lia.
  - destruct (HasPrefix (String c s) p) eqn:Hp.
    + apply HasPrefix_length in Hp. intros [= <-]. lia.
    + destruct (Index s p) as [k|] eqn:Hk; [|discriminate].
      intros [= <-]. specialize (IH _ eq_refl). simpl. lia.
Qed.

Lemma length_slice_from (m : nat) (s : string) :
  String.length (slice_from m s) = (String.length s - m)%nat.
Proof.
  revert s. induction m as [|m IH]; intros [|c s]; simpl; auto.
Qed.

(** Once the bound has reached the length of the string, more changes
    nothing: the loop has stopped at a failing [Index]. *)
Lemma genSplit_enough (n : nat) (s : string) :
  (String.length s <= n)%nat -> genSplit n s sep = Split s sep.
Proof.
  unfold Split. remember (String.length s) as k eqn:Hk.
  revert n s Hk. induction k as [k IH] using lt_wf_ind. intros n s Hk Hn.
  destruct n as [|n].
  - assert (k = 0%nat) as -> by lia. reflexivity.
  - destruct k as [|k].
    + destruct s; [reflexivity | discriminate].
    + simpl. destruct (Index s sep) as [m|] eqn:Hm; [|reflexivity].
      apply Index_bound in Hm. simpl in Hm. f_equal.
      pose proof (length_slice_from (m + 2) s) as Hl.
      rewrite (IH (String.length (slice_from (m + 2) s))); [|lia|done|lia].
      symmetry. apply (IH (String.length (slice_from (m + 2) s))); [lia|done|lia].
Qed.

Lemma genSplit_S (n : nat) (s p : string) :
  genSplit (S n) s p =
    match Index s p with
    | None => [s]
    | Some m => slice_to m s :: genSplit n (slice_from (m + String.length p) s) p
    end.
Proof. reflexivity. Qed.

Lemma Split_Index_None (s : string) :
  Index s sep = None -> Split s sep = [s].
Proof.
  intros H. unfold Split. destruct (String.length s); [reflexivity|].
  rewrite genSplit_S, H. reflexivity.
Qed.

Lemma Split_Index_Some (s : string) (m : nat) :
  Index s sep = Some m ->
  Split s sep = slice_to m s :: Split (slice_from (m + 2) s) sep.
Proof.
  intros H. pose proof (Index_bound _ _ _ H) as Hb.
  pose proof (length_slice_from (m + 2) s) as Hl.
  change (String.length sep) with 2%nat in Hb.
  unfold Split at 1. destruct (String.length s) as [|n] eqn:Hn; [lia|].
  rewrite genSplit_S, H. f_equal. apply genSplit_enough. lia.
Qed.

Lemma Split_sep (r : string) :
  Split (String "," (String " " r)) sep = "" :: Split r sep.
Proof.
  apply (Split_Index_Some (String "," (String " " r)) 0). reflexivity.
Qed.

Lemma Split_other (c : ascii) (r : string) :
  HasPrefix (String c r) sep = false ->
  Split (String c r) sep =
    match Split r sep with
    | f :: fs => String c f :: fs
    | [] => [String c ""]
    end.
Proof.
  intros Hp. destruct (Index r sep) as [m|] eqn:Hm.
  - rewrite (Split_Index_Some (String c r) (S m)).
    + rewrite (Split_Index_Some r m Hm). reflexivity.
    + cbn [Index]. rewrite Hp, Hm. reflexivity.
  - rewrite (Split_Index_None r Hm). apply Split_Index_None.
    cbn [Index]. rewrite Hp, Hm. reflexivity.
Qed.

(** [strings.Split(s, ", ")] is [splitFields s]. *)
Lemma Split_splitFields (s : string) : Split s sep = splitFields s.
Proof.
  remember (String.length s) as k eqn:Hk.
  revert s Hk. induction k as [k IH] using lt_wf_ind. intros s Hk.
  destruct s as [|c [|d r]]; [reflexivity| |].
  { apply Split_Index_None. simpl. by rewrite andb_false_r. }
  change (splitFields (String c (String d r))) with
    (if Ascii.eqb c "," && Ascii.eqb d " " then "" :: splitFields r
     else match splitFields (String d r) with
          | f :: fs => String c f :: fs
          | [] => [String c ""]
          end).
  destruct (Ascii.eqb c "," && Ascii.eqb d " ") eqn:Hcd.
  - apply andb_true_iff in Hcd as [->%Ascii.eqb_eq ->%Ascii.eqb_eq].
    rewrite Split_sep. f_equal. apply (IH (String.length r)); [simpl in Hk; lia|done].
  - rewrite Split_other.
    + rewrite (IH (String.length (String d r)) ltac:(simpl in *; lia) _ eq_refl).
      reflexivity.
    + simpl. rewrite andb_true_r. exact Hcd.
Qed.

Lemma string_ind2 (P : string -> Prop) :
  P "" ->
  (forall c, P (String c "")) ->
  (forall c d r, P r -> P (String d r) -> P (String c (String d r))) ->
  forall s, P s.
Proof.
  intros H0 H1 H2 s.
  enough (P s /\ forall c, P (String c s)) as [H _] by exact H.
  induction s as [|d r [IHr IHdr]]; split; auto.
Qed.

Lemma splitFields_eq (c d : ascii) (r : string) :
  splitFields (String c (String d r)) =
    if Ascii.eqb c "," && Ascii.eqb d " " then "" :: splitFields r
    else match splitFields (String d r) with
         | f :: fs => String c f :: fs
         | [] => [String c ""]
         end.
Proof. reflexivity. Qed.

Lemma splitFields_not_nil (s : string) : splitFields s <> [].

Proof.
  induction s as [|c|c d r _ IH] using string_ind2; [done|done|rewrite splitFields_eq].
  destruct (Ascii.eqb c "," && Ascii.eqb d " "); [done|].
  destruct (splitFields (String d r)); done.
Qed.

Lemma Join_cons (e : string) (elems : list string) (p : string) :
  elems <> [] -> Join (e :: elems) p = e +:+ p +:+ Join elems p.
Proof. destruct elems; done. Qed.

Lemma Join_String (c : ascii) (f : string) (fs : list string) (p : string) :
  Join (String c f :: fs) p = String c (Join (f :: fs) p).
Proof. destruct fs; reflexivity. Qed.

(** Joining the fields with the separator gives the line back. *)
Lemma Join_splitFields (s : string) : Join (splitFields s) sep = s.
Proof.
  induction s as [|c|c d r IHr IH] using string_ind2; [done|done|rewrite splitFields_eq].
  destruct (Ascii.eqb c "," && Ascii.eqb d " ") eqn:Hcd.
  - apply andb_true_iff in Hcd as [->%Ascii.eqb_eq ->%Ascii.eqb_eq].
    rewrite Join_cons by apply splitFields_not_nil. by rewrite IHr.
  - destruct (splitFields (String d r)) as [|f fs] eqn:Hs.
    { by apply splitFields_not_nil in Hs. }
    by rewrite Join_String, IH.
Qed.

(** The first field starts like the line, unless it is empty. *)
Lemma splitFields_head (d : ascii) (r f : string) (fs : list string) :
  splitFields (String d r) = f :: fs -> f = "" \/ exists f', f = String d f'.
Proof.
  destruct r as [|e r].
  - intros [= <- <-]. eauto.
  - rewrite splitFields_eq. destruct (Ascii.eqb d "," && Ascii.eqb e " ").
    + intros [= <- <-]. eauto.
    + destruct (splitFields (String e r)); intros [= <- <-]; eauto.
Qed.

Lemma Index_String_None (c : ascii) (f p : string) :
  Index (String c f) p = None <->
  HasPrefix (String c f) p = false /\ Index f p = None.
Proof.
  cbn [Index]. destruct (HasPrefix (String c f) p).
  - split; [discriminate|]. intros [? _]. discriminate.
  - destruct (Index f p); simpl; split; try done. intros [_ ?]. discriminate.
Qed.

(** No field contains the separator. *)
Lemma splitFields_sepfree (s : string) :
  Forall (fun f => Index f sep = None) (splitFields s).
Proof.
  induction s as [|c|c d r IHr IH] using string_ind2.
  - by repeat constructor.
  - repeat constructor. simpl. by rewrite andb_false_r.
  - rewrite splitFields_eq. destruct (Ascii.eqb c "," && Ascii.eqb d " ") eqn:Hcd.
    + by constructor.
    + destruct (splitFields (String d r)) as [|f fs] eqn:Hs.
      { by apply splitFields_not_nil in Hs. }
      apply Forall_cons in IH as [Hf Hfs]. constructor; [|done].
      apply Index_String_None. split; [|done].
      apply splitFields_head in Hs as [->|[f' ->]]; simpl.
      * by rewrite andb_false_r.
      * by rewrite andb_true_r.
Qed.

Lemma Index_app_sep (e t : string) :
  Index e sep = None ->
  Index (e +:+ sep +:+ t) sep = Some (String.length e).
Proof.
  induction e as [|c e IH]; [reflexivity|].
  intros [Hp He]%Index_String_None.
  change (String c e +:+ sep +:+ t) with (String c (e +:+ sep +:+ t)).
  cbn [Index String.length]. rewrite (IH He).
  replace (HasPrefix (String c (e +:+ sep +:+ t)) sep) with false; [done|].
  destruct e as [|d e]; simpl in *.
  - rewrite andb_false_r in *. by destruct (Ascii.eqb c ",").
  - rewrite andb_true_r in *. done.
Qed.

Lemma slice_to_app (e t : string) : slice_to (String.length e) (e +:+ t) = e.
Proof. induction e as [|c e IH]; simpl; [by destruct t|by rewrite IH]. Qed.

Lemma slice_from_app (e t : string) : slice_from (String.length e) (e +:+ t) = t.
Proof. induction e as [|c e IH]; simpl; [by destruct t|done]. Qed.

Lemma slice_from_add (n k : nat) (s : string) :
  slice_from (n + k) s = slice_from k (slice_from n s).
Proof.
  revert s. induction n as [|n IH]; intros [|c s]; simpl; try done.
  by destruct k.
Qed.

(** [Split] undoes [Join]: fields that do not contain the separator
    come back as they were joined. *)
Lemma Split_Join (fs : list string) :
  fs <> [] -> Forall (fun f => Index f sep = None) fs ->
  Split (Join fs sep) sep = fs.
Proof.
  induction fs as [|e fs IH]; [done|]. intros _ [He Hfs]%Forall_cons.
  destruct fs as [|e' fs].
  - by apply Split_Index_None.
  - rewrite Join_cons by done.
    rewrite (Split_Index_Some _ _ (Index_app_sep e _ He)).
    rewrite slice_to_app. f_equal.
    rewrite slice_from_add, slice_from_app. by apply IH.
Qed.

End SplitFacts.

(** ** The steps of [scrapeSmi] *)

Section SamplerFacts.

Variable ParseFloat : string -> float * option string.

Lemma bind_Return {A B : Type} (m : M A) (f : A -> M B) (w w' : World) (a : A) :
  m w = Return a w' -> (m ≫= f) w = f a w'.
Proof. unfold mbind, M_bind. by intros ->. Qed.

Lemma bind_Exit {A B : Type} (m : M A) (f : A -> M B) (w w' : World) (c : Z) :
  m w = Exit c w' -> (m ≫= f) w = Exit c w'.
Proof. unfold mbind, M_bind. by intros ->. Qed.

Lemma Set_write (k : Series) (v : float) (w : World) :
  prometheus.Set_ k v w = Return tt (write k v w).
Proof. reflexivity. Qed.

Lemma stats_labels : Forall (fun s => prometheus.variableLabels (metric s) = ["gpu"]) stats.
Proof. repeat constructor. Qed.

Lemma stats_names :
  NoDup (metricName <$> stats).
Proof. by apply (bool_decide_unpack _). Qed.

(** [With] on a gauge vector labelled by [gpu]: the child, there at 0
    when it was not. *)
Lemma With_gpu (stat : nvidiaStat) (gpu : string) (w : World) :
  prometheus.variableLabels (metric stat) = ["gpu"] ->
  exists vs, prometheus.With (metric stat) [("gpu", gpu)] w
             = Return (seriesOf stat gpu) (mkWorld (registered w) vs (events w))
    /\ forall v, <[seriesOf stat gpu := v]> vs = <[seriesOf stat gpu := v]> (values w).
Proof.
  intros Hl. unfold prometheus.With. rewrite Hl. simpl.
  fold (seriesOf stat gpu).
  destruct (values w !! seriesOf stat gpu) eqn:Hk.
  - exists (values w). by destruct w.
  - eexists. split; [reflexivity|]. intros v. simpl. apply insert_insert_eq.
Qed.

Lemma setStat_ok (gpu : string) (data : list string) (i : nat) (stat : nvidiaStat)
    (raw : string) (v : float) (w : World) :
  prometheus.variableLabels (metric stat) = ["gpu"] ->
  data !! (i + 1)%nat = Some raw ->
  ParseFloat raw = (v, None) ->
  setStat ParseFloat gpu data i stat w = Return tt (write (seriesOf stat gpu) v w).
Proof.
  intros Hl Hd Hp. unfold setStat, index. rewrite Hd.
  unfold mbind at 1, M_bind, mret, M_ret. rewrite Hp.
  destruct (With_gpu stat gpu w Hl) as (vs & HW & Hvs).
  rewrite (bind_Return _ _ _ _ _ HW). rewrite Set_write.
  unfold write. simpl. by rewrite Hvs.
Qed.

Lemma setStat_err (gpu : string) (data : list string) (i : nat) (stat : nvidiaStat)
    (raw e : string) (v : float) (w : World) :
  data !! (i + 1)%nat = Some raw ->
  ParseFloat raw = (v, Some e) ->
  setStat ParseFloat gpu data i stat w = Exit 1 (logged (convertError stat raw e) w).
Proof.
  intros Hd Hp. unfold setStat, index. rewrite Hd.
  unfold mbind, M_bind, mret, M_ret. by rewrite Hp.
Qed.

Lemma writes_snoc (gpu : string) (svs : list (nvidiaStat * float)) (s : nvidiaStat)
    (v : float) (w : World) :
  writes gpu (svs ++ [(s, v)]) w = write (seriesOf s gpu) v (writes gpu svs w).
Proof. unfold writes. by rewrite foldl_app. Qed.

(** The loop over the statistics, along fields that are floats: their
    gauges are set, and the loop goes on after them. *)
Lemma forRange_floats (gpu : string) (data : list string) (pre : list nvidiaStat) :
  forall (xs : list nvidiaStat) (i : nat) (vals : list float) (w : World),
    Forall (fun s => prometheus.variableLabels (metric s) = ["gpu"]) pre ->
    length vals = length pre ->
    (forall j v, vals !! j = Some v ->
       exists raw, data !! (i + j + 1)%nat = Some raw /\ ParseFloat raw = (v, None)) ->
    forRange i (pre ++ xs) (setStat ParseFloat gpu data) w
    = forRange (i + length pre) xs (setStat ParseFloat gpu data)
        (writes gpu (zip pre vals) w).
Proof.
  induction pre as [|s pre IH]; intros xs i vals w Hl Hlen Hv.
  - destruct vals; [|done]. simpl. by rewrite Nat.add_0_r.
  - destruct vals as [|v vals]; [done|].
    apply Forall_cons in Hl as [Hs Hl]. simpl in Hlen.
    destruct (Hv 0%nat v eq_refl) as (raw & Hraw & Hp).
    rewrite Nat.add_0_r in Hraw.
    cbn [app forRange].
    rewrite (bind_Return _ _ _ _ _ (setStat_ok gpu data i s raw v w Hs Hraw Hp)).
    rewrite (IH xs (S i) vals); [|done|lia|].
    + simpl. f_equal. lia.
    + intros j v' Hj. destruct (Hv (S j) v' Hj) as (raw' & Hr & Hp').
      exists raw'. split; [|done]. rewrite <- Hr. f_equal. lia.
Qed.

Lemma seriesOf_inj (s s' : nvidiaStat) (g g' : string) :
  seriesOf s g = seriesOf s' g' <-> metricName s = metricName s' /\ g = g'.
Proof.
  unfold seriesOf, metricName. split.
  - by intros [= -> ->].
  - by intros [-> ->].
Qed.

Lemma lastUpdated_seriesOf (s : nvidiaStat) (g : string) : lastUpdated <> seriesOf s g.
Proof. done. Qed.

Lemma writes_events (gpu : string) (svs : list (nvidiaStat * float)) (w : World) :
  events (writes gpu svs w)
  = events w ++ map (fun sv => EvSet (metricName sv.1) [("gpu", gpu)] sv.2) svs.
Proof.
  induction svs as [|[x v] svs IH] using rev_ind.
  - simpl. by rewrite app_nil_r.
  - rewrite writes_snoc, map_app. simpl. rewrite IH. by rewrite <- app_assoc.
Qed.

(** The gauges that were not set keep their value. *)
Lemma writes_other (gpu : string) (svs : list (nvidiaStat * float)) (w : World)
    (k : Series) :
  (forall sv, sv ∈ svs -> seriesOf sv.1 gpu <> k) ->
  values (writes gpu svs w) !! k = values w !! k.
Proof.
  induction svs as [|[x v] svs IH] using rev_ind; [done|]. intros H.
  rewrite writes_snoc. simpl. rewrite lookup_insert_ne.
  - apply IH. intros sv Hsv. apply H. set_solver.
  - apply (H (x, v)). set_solver.
Qed.

(** The gauges that were set hold the value they were set to. *)
Lemma writes_lookup (gpu : string) (svs : list (nvidiaStat * float)) (w : World)
    (j : nat) (s : nvidiaStat) (v : float) :
  NoDup (metricName <$> svs.*1) ->
  svs !! j = Some (s, v) ->
  values (writes gpu svs w) !! seriesOf s gpu = Some v.
Proof.
  revert j. induction svs as [|[x vx] svs IH] using rev_ind; [done|].
  intros j Hnd Hj. rewrite writes_snoc. simpl.
  rewrite !fmap_app in Hnd. apply NoDup_app in Hnd as (Hnd & Hx & _).
  destruct (decide (j < length svs)%nat) as [Hlt|Hge].
  - rewrite lookup_app_l in Hj by done.
    rewrite lookup_insert_ne; [by eapply IH|].
    intros [Hn _]%seriesOf_inj. apply (Hx (metricName s)); [|set_solver].
    apply list_elem_of_lookup_2, (list_elem_of_fmap_2 fst) in Hj.
    by apply (list_elem_of_fmap_2 metricName) in Hj.
  - rewrite lookup_app_r in Hj by lia.
    destruct (j - length svs)%nat; [|done]. injection Hj as -> ->.
    apply lookup_insert_eq.
Qed.

Lemma dropLast_snoc (body : string) (c : ascii) (w : World) :
  dropLast (body +:+ String c "") w = Return body w.
Proof.
  unfold dropLast.
  assert (String.length (body +:+ String c "") = S (String.length body)) as ->.
  { induction body as [|d body IH]; simpl; [done|by rewrite IH]. }
  by rewrite slice_to_app.
Qed.

(** One turn of the loop on a line: the time stamp is set, the last
    byte is dropped, what is left is split at the separators. *)
Lemma scrapeLine_eq (now : Z) (body : string) (c : ascii) (w : World) :
  scrapeLine ParseFloat now (body +:+ String c "") w
  = setStats ParseFloat body (strings.Split body ", ")
      (write lastUpdated (float64_of_int64 now) w).
Proof.
  unfold scrapeLine.
  rewrite (bind_Return _ _ _ _ _ (Set_write _ _ _)).
  by rewrite (bind_Return _ _ _ _ _ (dropLast_snoc _ _ _)).
Qed.

Lemma lineStep_refl (gpu : string) (w : World) : lineStep gpu w w.
Proof.
  repeat split; try done. exists []. by rewrite app_nil_r.
Qed.

Lemma lineStep_trans (gpu : string) (w1 w2 w3 : World) :
  lineStep gpu w1 w2 -> lineStep gpu w2 w3 -> lineStep gpu w1 w3.
Proof.
  intros (Hr & (r1 & He1 & Hf1) & Hd1 & Hv1) (Hr' & (r2 & He2 & Hf2) & Hd2 & Hv2).
  repeat split.
  - congruence.
  - exists (r1 ++ r2). split; [|by apply Forall_app].
    by rewrite He2, He1, app_assoc.
  - auto.
  - intros k Hk. by rewrite Hv2, Hv1.
Qed.

Lemma lineStep_write (gpu : string) (stat : nvidiaStat) (v : float) (w : World) :
  stat ∈ stats -> lineStep gpu w (write (seriesOf stat gpu) v w).
Proof.
  intros Hs. repeat split; simpl.
  - eexists. split; [done|]. repeat constructor. by exists stat.
  - intros k Hk. destruct (decide (seriesOf stat gpu = k)) as [<-|Hne].
    + by rewrite lookup_insert_eq.
    + by rewrite lookup_insert_ne.
  - intros k Hk. apply lookup_insert_ne. intros <-. by apply (Hk stat).
Qed.

Lemma lineStep_logged (gpu msg : string) (w : World) : lineStep gpu w (logged msg w).
Proof.
  repeat split; simpl; try done. eexists. split; [done|]. by repeat constructor.
Qed.

(** What [setStat] does, case by case. *)
Lemma setStat_cases (gpu : string) (data : list string) (i : nat) (stat : nvidiaStat)
    (w : World) :
  prometheus.variableLabels (metric stat) = ["gpu"] ->
  match data !! (i + 1)%nat with
  | None => setStat ParseFloat gpu data i stat w = Panicked "index out of range" w
  | Some raw =>
      match ParseFloat raw with
      | (v, None) =>
          setStat ParseFloat gpu data i stat w
          = Return tt (write (seriesOf stat gpu) v w)
      | (_, Some e) =>
          setStat ParseFloat gpu data i stat w
          = Exit 1 (logged (convertError stat raw e) w)
      end
  end.
Proof.
  intros Hl. destruct (data !! (i + 1)%nat) as [raw|] eqn:Hd.
  - destruct (ParseFloat raw) as [v [e|]] eqn:Hp.
    + by eapply setStat_err.
    + by eapply setStat_ok.
  - unfold setStat, index. by rewrite Hd.
Qed.

Lemma setStat_step (gpu : string) (data : list string) (i : nat) (stat : nvidiaStat)
    (w : World) :
  stat ∈ stats ->
  lineStep gpu w (worldOf (setStat ParseFloat gpu data i stat w)).
Proof.
  intros Hs.
  assert (prometheus.variableLabels (metric stat) = ["gpu"]) as Hl.
  { by apply (proj1 (Forall_forall _ _) stats_labels). }
  pose proof (setStat_cases gpu data i stat w Hl) as H.
  destruct (data !! (i + 1)%nat) as [raw|].
  - destruct (ParseFloat raw) as [v [e|]]; rewrite H; simpl.
    + apply lineStep_logged.
    + by apply lineStep_write.
  - rewrite H. apply lineStep_refl.
Qed.

Lemma forRange_step (gpu : string) (data : list string) (xs : list nvidiaStat) :
  forall (i : nat) (w : World),
    Forall (fun s => s ∈ stats) xs ->
    lineStep gpu w (worldOf (forRange i xs (setStat ParseFloat gpu data) w)).
Proof.
  induction xs as [|x xs IH]; intros i w Hxs; [apply lineStep_refl|].
  apply Forall_cons in Hxs as [Hx Hxs]. cbn [forRange].
  pose proof (setStat_step gpu data i x w Hx) as Hstep.
  unfold mbind, M_bind.
  destruct (setStat ParseFloat gpu data i x w) as [[] w'|c w'|msg w']; simpl in *;
    try done.
  eapply lineStep_trans; [exact Hstep|]. by apply IH.
Qed.

Lemma stats_all : Forall (fun s => s ∈ stats) stats.
Proof. by apply Forall_forall. Qed.

(** The fields of a line: the world moves by [lineStep] for the device
    that the line names. *)
Lemma setStats_step (line : string) (data : list string) (w : World) :
  lineStep (hd EmptyString data) w (worldOf (setStats ParseFloat line data w)).
Proof.
  unfold setStats.
  destruct (negb (length data =? length stats + 1)%nat) eqn:Hn.
  - apply lineStep_logged.
  - destruct data as [|gpu fields]; [done|].
    unfold index. simpl hd. cbn [lookup list_lookup].
    unfold mbind, M_bind, mret, M_ret. apply forRange_step, stats_all.
Qed.

(** The loop over the statistics does not panic when the fields are
    there. *)
Lemma forRange_no_panic (gpu : string) (data : list string) (xs : list nvidiaStat) :
  forall (i : nat) (w : World),
    Forall (fun s => prometheus.variableLabels (metric s) = ["gpu"]) xs ->
    (i + length xs < length data)%nat ->
    panicked (forRange i xs (setStat ParseFloat gpu data) w) = false.
Proof.
  induction xs as [|x xs IH]; intros i w Hl Hlen; [done|].
  apply Forall_cons in Hl as [Hx Hl]. cbn [forRange]. simpl in Hlen.
  pose proof (setStat_cases gpu data i x w Hx) as H.
  destruct (data !! (i + 1)%nat) as [raw|] eqn:Hd.
  - unfold mbind, M_bind.
    destruct (ParseFloat raw) as [v [e|]]; rewrite H; [done|].
    apply IH; [done|lia].
  - apply lookup_ge_None in Hd. lia.
Qed.

Lemma stats_lookup_ne (i j : nat) (s s' : nvidiaStat) (g : string) :
  stats !! i = Some s -> stats !! j = Some s' -> i <> j ->
  seriesOf s g <> seriesOf s' g.
Proof.
  intros Hi Hj Hne [Hn _]%seriesOf_inj. apply Hne.
  apply (NoDup_lookup (metricName <$> stats) i j (metricName s)).
  - apply stats_names.
  - by rewrite list_lookup_fmap, Hi.
  - by rewrite list_lookup_fmap, Hj, Hn.
Qed.

(** A line with a field for each statistic, the first [k] of them
    floats: their gauges are set, and the loop is at the [k]-th. *)
Lemma setStats_floats (line gpu : string) (fields : list string) (k : nat)
    (vals : list float) (w : World) :
  length fields = length stats ->
  Forall2 (fun raw v => ParseFloat raw = (v, None)) (take k fields) vals ->
  setStats ParseFloat line (gpu :: fields) w
  = forRange (length (take k stats)) (drop k stats)
      (setStat ParseFloat gpu (gpu :: fields))
      (writes gpu (zip (take k stats) vals) w).
Proof.
  intros Hlen Hv. unfold setStats.
  assert ((length (gpu :: fields) =? length stats + 1)%nat = true) as ->.
  { apply Nat.eqb_eq. change (length (gpu :: fields)) with (S (length fields)). lia. }
  unfold index. cbn [negb lookup list_lookup].
  unfold mbind at 1, M_bind, mret, M_ret.
  rewrite <- (take_drop k stats) at 1.
  apply (forRange_floats gpu (gpu :: fields) (take k stats) (drop k stats) 0 vals w).
  - apply Forall_take, stats_labels.
  - apply Forall2_length in Hv. rewrite <- Hv, !length_take. lia.
  - intros j v Hj.
    destruct (Forall2_lookup_r _ _ _ _ _ Hv Hj) as (raw & Hraw & Hp).
    exists raw. split; [|done].
    apply lookup_take_Some in Hraw as [Hraw _].
    by replace (0 + j + 1)%nat with (S j) by lia.
Qed.

Lemma zip_stats_lookup (k i : nat) (vals : list float) (stat : nvidiaStat) (v : float) :
  length vals = length (take k stats) ->
  stats !! i = Some stat -> vals !! i = Some v ->
  zip (take k stats) vals !! i = Some (stat, v)
  /\ NoDup (metricName <$> (zip (take k stats) vals).*1).
Proof.
  intros Hlen Hs Hv. split.
  - apply lookup_zip_with_Some. exists stat, v. split; [done|]. split; [|done].
    apply lookup_take_Some. split; [done|].
    apply lookup_lt_Some in Hv. rewrite Hlen, length_take in Hv. lia.
  - rewrite fst_zip by lia. rewrite fmap_take.
    eapply sublist_NoDup; [apply stats_names|apply sublist_take].
Qed.

(** The statistics from the [k]-th on are not among the first [k]. *)
Lemma writes_later (gpu : string) (k j : nat) (vals : list float) (stat : nvidiaStat)
    (w : World) :
  (k <= j)%nat -> stats !! j = Some stat ->
  values (writes gpu (zip (take k stats) vals) w) !! seriesOf stat gpu
  = values w !! seriesOf stat gpu.
Proof.
  intros Hkj Hj. apply writes_other. intros [s v] Hsv.
  apply list_elem_of_lookup in Hsv as [i Hi].
  apply lookup_zip_with_Some in Hi as (s' & v' & [= <- <-] & Hs & _).
  apply lookup_take_Some in Hs as [Hs Hik]. simpl.
  eapply stats_lookup_ne; [done..|lia].
Qed.

(** C1: a line of exactly N+1 fields separated by [", "] whose N
    fields after the first are floats: the first field is the device,
    the others are parsed in the order of the query (memory.used,
    memory.total, utilization.gpu, utilization.memory, temperature.gpu,
    power.draw), and the gauge of each statistic for that device holds
    the value parsed from its field. *)
Theorem C1_well_formed_line_sets_gauges (now : Z) (body gpu : string)
    (fields : list string) (vals : list float) (w : World) :
  strings.Split body ", " = gpu :: fields ->
  length fields = length stats ->
  Forall2 (fun raw v => ParseFloat raw = (v, None)) fields vals ->
  map name stats = ["memory.used"; "memory.total"; "utilization.gpu";
                    "utilization.memory"; "temperature.gpu"; "power.draw"]
  /\ exists w',
      scrapeLine ParseFloat now (body +:+ newline) w = Return tt w'
      /\ (forall i stat v,
            stats !! i = Some stat -> vals !! i = Some v ->
            values w' !! seriesOf stat gpu = Some v)
      /\ events w'
         = events w
           ++ EvSet "nvidia_last_updated_time" [] (float64_of_int64 now)
              :: map (fun sv => EvSet (metricName sv.1) [("gpu", gpu)] sv.2)
                   (zip stats vals).
Proof.
  intros Hsplit Hlen Hv. split; [reflexivity|].
  unfold newline. rewrite scrapeLine_eq, Hsplit.
  pose proof (Forall2_length _ _ _ Hv) as Hlv.
  rewrite (setStats_floats body gpu fields (length stats) vals); [|done|].
  2:{ by rewrite take_ge by lia. }
  rewrite drop_all. cbn [forRange].
  eexists. split; [reflexivity|]. split.
  - intros i stat v Hs Hi.
    destruct (zip_stats_lookup (length stats) i vals stat v) as [Hz Hnd]; [|done..|].
    { rewrite length_take. lia. }
    by eapply writes_lookup.
  - rewrite writes_events, firstn_all. unfold write. cbn [events].
    by rewrite <- app_assoc.
Qed.

(** A line whose number of fields is not that of the statistics plus
    one. *)
Lemma scrapeLine_bad_count (now : Z) (body : string) (w : World) :
  length (strings.Split body ", ") <> S (length stats) ->
  scrapeLine ParseFloat now (body +:+ newline) w
  = Exit 1 (logged ("invalid nvidia-smi output: " +:+ body)
              (write lastUpdated (float64_of_int64 now) w)).
Proof.
  intros Hn. unfold newline. rewrite scrapeLine_eq. unfold setStats.
  assert ((length (strings.Split body ", ") =? length stats + 1)%nat = false) as ->.
  { apply Nat.eqb_neq. lia. }
  reflexivity.
Qed.

(** The revision with the check (nvidia_exporter.go), on a line whose
    number of fields is not the number of statistics plus one, fewer
    or more: the process exits with status 1, the last thing it does
    being to log the line; besides the time stamp no gauge is touched,
    so nothing of the line is kept, cut or filled in. *)
Lemma checked_field_count_mismatch_is_fatal (now : Z) (body : string) (w : World) :
  length (strings.Split body ", ") <> S (length stats) ->
  exists w',
    scrapeLine ParseFloat now (body +:+ newline) w = Exit 1 w'
    /\ last (events w') = Some (EvLog ("invalid nvidia-smi output: " +:+ body))
    /\ values w' = <[lastUpdated := float64_of_int64 now]> (values w)
    /\ forall stat g, values w' !! seriesOf stat g = values w !! seriesOf stat g.
Proof.
  intros Hn. eexists. split; [by apply scrapeLine_bad_count|].
  split; [|split; [done|]].
  - simpl. by rewrite last_snoc.
  - intros stat g. simpl. apply lookup_insert_ne, lastUpdated_seriesOf.
Qed.

(** A line with a field for each statistic whose [k]-th field is the
    first that is no float: the gauges of the fields before it are set,
    then the process exits on the message for that field. *)
Lemma scrapeLine_failure_at (now : Z) (body gpu : string) (fields : list string)
    (k : nat) (vals : list float) (raw e : string) (zero : float) (w : World) :
  strings.Split body ", " = gpu :: fields ->
  length fields = length stats ->
  Forall2 (fun r v => ParseFloat r = (v, None)) (take k fields) vals ->
  fields !! k = Some raw ->
  ParseFloat raw = (zero, Some e) ->
  exists stat,
    stats !! k = Some stat
    /\ scrapeLine ParseFloat now (body +:+ newline) w
       = Exit 1 (logged (convertError stat raw e)
                   (writes gpu (zip (take k stats) vals)
                      (write lastUpdated (float64_of_int64 now) w))).
Proof.
  intros Hsplit Hlen Hv Hk Hp.
  pose proof (lookup_lt_Some _ _ _ Hk) as Hlt. rewrite Hlen in Hlt.
  destruct (lookup_lt_is_Some_2 stats k Hlt) as [stat Hstat].
  exists stat. split; [done|].
  unfold newline. rewrite scrapeLine_eq, Hsplit.
  rewrite (setStats_floats body gpu fields k vals) by done.
  rewrite (drop_S _ _ _ Hstat). cbn [forRange].
  apply bind_Exit. apply (setStat_err _ _ _ _ raw e zero); [|done].
  rewrite length_take, Nat.min_l by lia.
  by replace (k + 1)%nat with (S k) by lia.
Qed.

(** The first field that is no float. *)
Lemma first_failure (fields : list string) :
  Exists (fun r => (ParseFloat r).2 <> None) fields ->
  exists k raw e,
    fields !! k = Some raw /\ (ParseFloat raw).2 = Some e
    /\ Forall (fun r => (ParseFloat r).2 = None) (take k fields).
Proof.
  induction fields as [|r fields IH]; intros Hex; [by apply Exists_nil in Hex|].
  destruct ((ParseFloat r).2) as [e|] eqn:Hr.
  - exists 0%nat, r, e. by repeat split.
  - apply Exists_cons in Hex as [Hex|Hex]; [done|].
    destruct (IH Hex) as (k & raw & e & Hk & He & Hall).
    exists (S k), raw, e. repeat split; try done. simpl. by constructor.
Qed.

(** C3: a line in which some field after the first is no float: the
    process exits with status 1.  When the line has a field for each
    statistic, the last thing the process does is to log the name of
    the statistic, the field as it was read and the error of the
    parser, for the first such field; the value that came with the
    error is stored nowhere: the gauges of that statistic and of those
    after it are as they were. *)
Theorem C3_parse_failure_is_fatal (now : Z) (body gpu : string)
    (fields : list string) (w : World) :
  strings.Split body ", " = gpu :: fields ->
  Exists (fun r => (ParseFloat r).2 <> None) fields ->
  exists w',
    scrapeLine ParseFloat now (body +:+ newline) w = Exit 1 w'
    /\ (length fields = length stats ->
        exists k stat raw e,
          stats !! k = Some stat /\ fields !! k = Some raw
          /\ (ParseFloat raw).2 = Some e
          /\ Forall (fun r => (ParseFloat r).2 = None) (take k fields)
          /\ last (events w') = Some (EvLog (convertError stat raw e))
          /\ forall j stat',
              (k <= j)%nat -> stats !! j = Some stat' ->
              values w' !! seriesOf stat' gpu = values w !! seriesOf stat' gpu).
Proof.
  intros Hsplit Hex.
  destruct (decide (length fields = length stats)) as [Hlen|Hlen].
  2:{ eexists. split; [|done]. apply scrapeLine_bad_count.
      rewrite Hsplit. change (length (gpu :: fields)) with (S (length fields)). lia. }
  destruct (first_failure fields Hex) as (k & raw & e & Hk & He & Hall).
  destruct (ParseFloat raw) as [zero e'] eqn:Hp. simpl in He. subst e'.
  destruct (scrapeLine_failure_at now body gpu fields k
              ((fun r => (ParseFloat r).1) <$> take k fields) raw e zero w)
    as (stat & Hstat & Hrun); try done.
  { apply Forall2_fmap_r, Forall_Forall2_diag.
    eapply Forall_impl; [exact Hall|]. intros r. unfold compose.
    destruct (ParseFloat r) as [f o]. simpl. by intros ->. }
  eexists. split; [exact Hrun|]. intros _. exists k, stat, raw, e.
  split; [done|]. split; [done|]. split; [by rewrite Hp|]. split; [done|].
  split.
  - simpl. by rewrite last_snoc.
  - intros j stat' Hkj Hj. simpl. rewrite (writes_later gpu k j) by done.
    simpl. apply lookup_insert_ne, lastUpdated_seriesOf.
Qed.

(** C9: when the [k]-th field of a line is the first that is no float,
    the process exits with the gauges of the fields before it already
    at the values of this line, and those of the [k]-th statistic and
    of the later ones as they were: the update of a line is not
    atomic. *)
Theorem C9_failing_line_updates_earlier_gauges (now : Z) (body gpu : string)
    (fields : list string) (k : nat) (vals : list float) (raw e : string)
    (zero : float) (w : World) :
  strings.Split body ", " = gpu :: fields ->
  length fields = length stats ->
  Forall2 (fun r v => ParseFloat r = (v, None)) (take k fields) vals ->
  fields !! k = Some raw ->
  ParseFloat raw = (zero, Some e) ->
  exists w',
    scrapeLine ParseFloat now (body +:+ newline) w = Exit 1 w'
    /\ (forall i stat v,
          stats !! i = Some stat -> vals !! i = Some v ->
          values w' !! seriesOf stat gpu = Some v)
    /\ (forall j stat,
          (k <= j)%nat -> stats !! j = Some stat ->
          values w' !! seriesOf stat gpu = values w !! seriesOf stat gpu).
Proof.
  intros Hsplit Hlen Hv Hk Hp.
  destruct (scrapeLine_failure_at now body gpu fields k vals raw e zero w)
    as (stat & Hstat & Hrun); try done.
  eexists. split; [exact Hrun|]. split.
  - intros i stat' v Hs Hi. simpl.
    destruct (zip_stats_lookup k i vals stat' v) as [Hz Hnd]; [|done..|].
    { apply Forall2_length in Hv. rewrite <- Hv, !length_take. lia. }
    by eapply writes_lookup.
  - intros j stat' Hkj Hj. simpl. rewrite (writes_later gpu k j) by done.
    simpl. apply lookup_insert_ne, lastUpdated_seriesOf.
Qed.

(** The effects of a line: first the time stamp, then only what the
    fields of the line bring. *)
Lemma scrapeLine_step (now : Z) (body : string) (w : World) :
  lineStep (deviceOf body) (write lastUpdated (float64_of_int64 now) w)
    (worldOf (scrapeLine ParseFloat now (body +:+ newline) w)).
Proof. unfold newline. rewrite scrapeLine_eq. apply setStats_step. Qed.

(** C4, as the program has it: the time stamp is set on every line
    that was read, before the line is looked at, whether or not the
    line is then accepted: whatever the outcome, the gauge holds the
    time of this read, and setting it is the first effect of the turn,
    before any gauge of a statistic is set. *)
Theorem C4_time_stamp_set_on_every_line_read (now : Z) (body : string) (w : World) :
  exists rest,
    values (worldOf (scrapeLine ParseFloat now (body +:+ newline) w)) !! lastUpdated
    = Some (float64_of_int64 now)
    /\ events (worldOf (scrapeLine ParseFloat now (body +:+ newline) w))
       = events w ++ EvSet "nvidia_last_updated_time" [] (float64_of_int64 now) :: rest
    /\ Forall (lineEffect (deviceOf body)) rest.
Proof.
  destruct (scrapeLine_step now body w) as (_ & (rest & He & Hf) & _ & Hv).
  exists rest. split; [|split; [|done]].
  - rewrite Hv; [apply lookup_insert_eq|].
    intros stat _. apply lastUpdated_seriesOf.
  - rewrite He. simpl. by rewrite <- app_assoc.
Qed.

(** C7: of a line as it was read, exactly the last byte is dropped;
    what is left is cut at every [", "] and nowhere else: joining the
    fields with [", "] gives it back, no field contains [", "], and
    fields without [", "] that were joined come back as they were.
    Quotes mean nothing to the split. *)
Theorem C7_last_byte_dropped_then_split_at_separator (now : Z) (body : string)
    (c : ascii) (w : World) :
  scrapeLine ParseFloat now (body +:+ String c "") w
  = setStats ParseFloat body (strings.Split body ", ")
      (write lastUpdated (float64_of_int64 now) w)
  /\ strings.Join (strings.Split body ", ") ", " = body
  /\ Forall (fun f => strings.Contains f ", " = false) (strings.Split body ", ")
  /\ (forall fs,
        fs <> [] -> Forall (fun f => strings.Contains f ", " = false) fs ->
        strings.Split (strings.Join fs ", ") ", " = fs)
  /\ strings.Split (quote +:+ "a, b" +:+ quote +:+ ", 7") ", "
     = [quote +:+ "a"; "b" +:+ quote; "7"].
Proof.
  assert (forall f, strings.Contains f ", " = false <-> strings.Index f sep = None) as Hc.
  { intros f. unfold strings.Contains, sep. by destruct (strings.Index f ", "). }
  split; [apply scrapeLine_eq|]. split; [|split; [|split; [|reflexivity]]].
  - fold sep. rewrite Split_splitFields. apply Join_splitFields.
  - fold sep. rewrite Split_splitFields.
    eapply Forall_impl; [apply splitFields_sepfree|]. intros f. apply Hc.
  - intros fs Hne Hfs. apply Split_Join; [done|].
    eapply Forall_impl; [exact Hfs|]. intros f. apply Hc.
Qed.

(** What [ReadBytes] gives the loop: a line that ends in the line feed. *)
Lemma ReadBytes_line (stream line rest : string) :
  bufio.ReadBytes "010" stream = (line, Some rest) ->
  exists body, line = body +:+ newline /\ Lines stream = body :: Lines rest.
Proof.
  revert line. induction stream as [|c stream IH]; intros line; [done|].
  cbn [bufio.ReadBytes Lines]. destruct (Ascii.eqb c "010") eqn:Hc.
  - apply Ascii.eqb_eq in Hc as ->. intros [= <- <-]. by exists "".
  - destruct (bufio.ReadBytes "010" stream) as [l r] eqn:Hr.
    intros [= <- ->]. destruct (IH l eq_refl) as (body & -> & ->).
    by exists (String c body).
Qed.

Lemma ReadBytes_rest (stream line rest : string) :
  bufio.ReadBytes "010" stream = (line, Some rest) ->
  (String.length rest < String.length stream)%nat.
Proof.
  revert line. induction stream as [|c stream IH]; intros line; [done|].
  cbn [bufio.ReadBytes]. destruct (Ascii.eqb c "010").
  - intros [= <- <-]. simpl. lia.
  - destruct (bufio.ReadBytes "010" stream) as [l r] eqn:Hr.
    intros [= <- ->]. specialize (IH l eq_refl). simpl. lia.
Qed.

(** A line does not panic: the indices into its fields are in range. *)
Lemma scrapeLine_no_panic (now : Z) (body : string) (w : World) :
  panicked (scrapeLine ParseFloat now (body +:+ newline) w) = false.
Proof.
  unfold newline. rewrite scrapeLine_eq. unfold setStats.
  destruct (length (strings.Split body ", ") =? length stats + 1)%nat eqn:Hn; [|done].
  apply Nat.eqb_eq in Hn.
  destruct (strings.Split body ", ") as [|gpu fields]; [done|].
  unfold index. cbn [negb lookup list_lookup].
  unfold mbind at 1, M_bind, mret, M_ret.
  apply forRange_no_panic; [apply stats_labels|]. lia.
Qed.

Lemma forRange_exit_code (gpu : string) (data : list string) (xs : list nvidiaStat) :
  forall (i : nat) (w w' : World) (code : Z),
    Forall (fun s => prometheus.variableLabels (metric s) = ["gpu"]) xs ->
    forRange i xs (setStat ParseFloat gpu data) w = Exit code w' -> code = 1.
Proof.
  induction xs as [|x xs IH]; intros i w w' code Hl; [done|].
  apply Forall_cons in Hl as [Hx Hl]. cbn [forRange].
  pose proof (setStat_cases gpu data i x w Hx) as H.
  unfold mbind, M_bind.
  destruct (data !! (i + 1)%nat) as [raw|].
  - destruct (ParseFloat raw) as [v [e|]]; rewrite H.
    + by intros [= <- _].
    + by apply IH.
  - by rewrite H.
Qed.

(** A line only leaves the process through [log.Fatalf]. *)
Lemma scrapeLine_exit_code (now : Z) (body : string) (w w' : World) (code : Z) :
  scrapeLine ParseFloat now (body +:+ newline) w = Exit code w' -> code = 1.
Proof.
  unfold newline. rewrite scrapeLine_eq. unfold setStats.
  destruct (negb _); [by intros [= <- _]|].
  unfold index. destruct (strings.Split body ", ") as [|gpu fields]; [done|].
  cbn [lookup list_lookup]. unfold mbind at 1, M_bind, mret, M_ret.
  apply forRange_exit_code, stats_labels.
Qed.

(** The loop ends, and it ends by leaving the process: on any output
    of the subprocess, one turn more than it has bytes is enough. *)
Lemma scrapeLoop_exits (stdout : string) :
  forall (fuel : nat) (clock : nat -> Z) (n : nat) (w : World),
    (String.length stdout < fuel)%nat ->
    exists w', scrapeLoop ParseFloat fuel clock n stdout w = Some (Exit 1 w').
Proof.
  remember (String.length stdout) as len eqn:Hlen. revert stdout Hlen.
  induction len as [len IH] using lt_wf_ind.
  intros stdout Hlen fuel clock n w Hfuel.
  destruct fuel as [|fuel]; [lia|]. cbn [scrapeLoop].
  destruct (bufio.ReadBytes "010" stdout) as [line [rest|]] eqn:Hr.
  - destruct (ReadBytes_line _ _ _ Hr) as (body & -> & _).
    pose proof (ReadBytes_rest _ _ _ Hr) as Hrest.
    pose proof (scrapeLine_no_panic (clock n) body w) as Hp.
    destruct (scrapeLine ParseFloat (clock n) (body +:+ newline) w)
      as [[] w'|code w'|msg w'] eqn:Hrun; [| |done].
    + apply (IH (String.length rest)); [lia|done|lia].
    + apply scrapeLine_exit_code in Hrun as ->. by exists w'.
  - eexists. reflexivity.
Qed.

Lemma scrapeLoop_no_panic (fuel : nat) :
  forall (clock : nat -> Z) (n : nat) (stdout : string) (w : World),
    from_option panicked false (scrapeLoop ParseFloat fuel clock n stdout w) = false.
Proof.
  induction fuel as [|fuel IH]; intros clock n stdout w; [done|].
  cbn [scrapeLoop].
  destruct (bufio.ReadBytes "010" stdout) as [line [rest|]] eqn:Hr; [|done].
  destruct (ReadBytes_line _ _ _ Hr) as (body & -> & _).
  pose proof (scrapeLine_no_panic (clock n) body w) as Hp.
  destruct (scrapeLine ParseFloat (clock n) (body +:+ newline) w)
    as [[] w'|code w'|msg w']; [apply IH|done|done].
Qed.

(** The revision with the check (nvidia_exporter.go): on every line,
    the empty one too, the indices into the fields of the line (0 for
    the device, 1 to N for the statistics) are in range: a turn of the
    loop never panics, and neither does the loop on any output of the
    subprocess. *)
Lemma checked_field_indices_in_range (now : Z) (body : string) (w : World)
    (fuel : nat) (clock : nat -> Z) (n : nat) (stdout : string) :
  panicked (scrapeLine ParseFloat now (body +:+ newline) w) = false
  /\ panicked (scrapeLine ParseFloat now newline w) = false
  /\ from_option panicked false (scrapeLoop ParseFloat fuel clock n stdout w) = false.
Proof.
  split; [apply scrapeLine_no_panic|]. split; [|apply scrapeLoop_no_panic].
  apply (scrapeLine_no_panic now "" w).
Qed.

(** A line drops no series, and leaves the series of every other
    device as it was. *)
Lemma scrapeLine_keeps (now : Z) (body : string) (w : World) :
  (forall k, is_Some (values w !! k) ->
     is_Some (values (worldOf (scrapeLine ParseFloat now (body +:+ newline) w)) !! k))
  /\ (forall stat g, g <> deviceOf body ->
        values (worldOf (scrapeLine ParseFloat now (body +:+ newline) w))
          !! seriesOf stat g
        = values w !! seriesOf stat g).
Proof.
  destruct (scrapeLine_step now body w) as (_ & _ & Hd & Hv). split.
  - intros k Hk. apply Hd. simpl.
    destruct (decide (lastUpdated = k)) as [<-|Hne].
    + by rewrite lookup_insert_eq.
    + by rewrite lookup_insert_ne.
  - intros stat g Hg. rewrite Hv.
    + simpl. apply lookup_insert_ne, lastUpdated_seriesOf.
    + intros stat' _ [_ ?]%seriesOf_inj. done.
Qed.

(** C10: a gauge value, once there, is never deleted: whatever the
    subprocess writes afterwards, every series that had a value has one
    when the process ends; the series of a device that no later line
    names hold the value they had; and a line leaves the series of
    every device but its own as they were. *)
Theorem C10_gauge_values_are_never_deleted (fuel : nat) (clock : nat -> Z) (n : nat)
    (stdout : string) (w : World) (o : Outcome unit) :
  scrapeLoop ParseFloat fuel clock n stdout w = Some o ->
  (forall k, is_Some (values w !! k) -> is_Some (values (worldOf o) !! k))
  /\ (forall stat g,
        g ∉ deviceOf <$> Lines stdout ->
        values (worldOf o) !! seriesOf stat g = values w !! seriesOf stat g)
  /\ (forall now body w1 stat g,
        g <> deviceOf body ->
        values (worldOf (scrapeLine ParseFloat now (body +:+ newline) w1))
          !! seriesOf stat g
        = values w1 !! seriesOf stat g).
Proof.
  intros Hrun.
  enough ((forall k, is_Some (values w !! k) -> is_Some (values (worldOf o) !! k))
          /\ (forall stat g,
                g ∉ deviceOf <$> Lines stdout ->
                values (worldOf o) !! seriesOf stat g = values w !! seriesOf stat g))
    as [H1 H2].
  { split; [done|]. split; [done|]. intros now body w1 stat g. apply scrapeLine_keeps. }
  revert n stdout w Hrun.
  induction fuel as [|fuel IH]; intros n stdout w; [done|].
  cbn [scrapeLoop].
  destruct (bufio.ReadBytes "010" stdout) as [line [rest|]] eqn:Hr.
  - destruct (ReadBytes_line _ _ _ Hr) as (body & -> & ->).
    destruct (scrapeLine_keeps (clock n) body w) as [Hd Hv].
    destruct (scrapeLine ParseFloat (clock n) (body +:+ newline) w)
      as [[] w'|code w'|msg w'] eqn:Hline; simpl in Hd, Hv.
    + intros Hrun. destruct (IH _ _ _ Hrun) as [Hd' Hv']. split.
      * auto.
      * intros stat g Hg. rewrite fmap_cons, not_elem_of_cons in Hg.
        destruct Hg as [Hg Hg']. rewrite Hv' by done. by apply Hv.
    + intros [= <-]. split; [done|]. intros stat g Hg.
      rewrite fmap_cons, not_elem_of_cons in Hg. apply Hv, Hg.
    + intros [= <-]. split; [done|]. intros stat g Hg.
      rewrite fmap_cons, not_elem_of_cons in Hg. apply Hv, Hg.
  - by intros [= <-].
Qed.

(** [scrapeSmi] up to the start of the command: the gauges are
    registered, then the interval decides. *)
Lemma scrapeStart_eq (interval : Z) :
  scrapeStart interval world0
  = if String.eqb (fmt.Sprintf_0f (time.Seconds interval)) "0"
    then Exit 1 (logged "interval must be at least 1 second" worldRegistered)
    else Return (commandArgs (fmt.Sprintf_0f (time.Seconds interval)))
           (worldStarted (fmt.Sprintf_0f (time.Seconds interval))).
Proof.
  unfold scrapeStart. generalize (fmt.Sprintf_0f (time.Seconds interval)).
  intros seconds.
  do 3 (erewrite bind_Return; [|vm_compute; reflexivity]).
  destruct (String.eqb seconds "0"); reflexivity.
Qed.

(** C6, as the program has it: the gauge vector of every statistic has
    the one label [gpu] (no label is called [device]), the time stamp
    has none; so they are registered; and after the time stamp a line
    only sets gauges of statistics with the one label [gpu], its value
    the first field of the line. *)
Theorem C6_gauges_are_labelled_gpu (interval now : Z) (body : string) (w : World) :
  Forall (fun s => prometheus.variableLabels (metric s) = ["gpu"]) stats
  /\ lastUpdated = ("nvidia_last_updated_time", [])
  /\ registered (worldOf (scrapeStart interval world0))
     = ("nvidia_last_updated_time", []) :: map (fun s => (metricName s, ["gpu"])) stats
  /\ exists rest,
      events (worldOf (scrapeLine ParseFloat now (body +:+ newline) w))
      = events w ++ EvSet "nvidia_last_updated_time" [] (float64_of_int64 now) :: rest
      /\ Forall (fun e =>
                   match e with
                   | EvSet n l _ =>
                       exists stat, stat ∈ stats /\ n = metricName stat
                                    /\ l = [("gpu", deviceOf body)]
                   | EvLog _ => True
                   | _ => False
                   end) rest.
Proof.
  split; [apply stats_labels|]. split; [done|]. split.
  - rewrite scrapeStart_eq. by destruct (String.eqb _ _).
  - destruct (scrapeLine_step now body w) as (_ & (rest & He & Hf) & _).
    exists rest. split; [|exact Hf].
    rewrite He. simpl. by rewrite <- app_assoc.
Qed.

End SamplerFacts.

(** ** The interval *)







(** ** The program on examples *)

Lemma C1_witness :
  map name stats = ["memory.used"; "memory.total"; "utilization.gpu";
                    "utilization.memory"; "temperature.gpu"; "power.draw"]
  /\ exists w',
      scrapeLine decimal.ParseFloat 1700000000 (exampleLine +:+ newline) worldRegistered
      = Return tt w'
      /\ (forall i stat v,
            stats !! i = Some stat ->
            [1024; 8192; 15; 3; 42; 120.5]%float !! i = Some v ->
            values w' !! seriesOf stat "0" = Some v)
      /\ events w'
         = events worldRegistered
           ++ EvSet "nvidia_last_updated_time" [] (float64_of_int64 1700000000)
              :: map (fun sv => EvSet (metricName sv.1) [("gpu", "0")] sv.2)
                   (zip stats [1024; 8192; 15; 3; 42; 120.5]%float).
Proof.
  apply (C1_well_formed_line_sets_gauges decimal.ParseFloat 1700000000 exampleLine "0"
           ["1024"; "8192"; "15"; "3"; "42"; "120.5"]).
  - vm_compute. reflexivity.
  - reflexivity.
  - repeat (constructor; [vm_compute; reflexivity|]). constructor.
Defined.

(** The short line of the specification, with the check. *)
Example checked_short_line_is_fatal :
  exists w',
    scrapeLine decimal.ParseFloat 1700000000 ("1, 512, 8192, 10" +:+ newline)
      worldRegistered
    = Exit 1 w'
    /\ last (events w') = Some (EvLog "invalid nvidia-smi output: 1, 512, 8192, 10")
    /\ values w' = <[lastUpdated := float64_of_int64 1700000000]> (values worldRegistered)
    /\ forall stat g,
        values w' !! seriesOf stat g = values worldRegistered !! seriesOf stat g.
Proof.
  apply (checked_field_count_mismatch_is_fatal decimal.ParseFloat 1700000000
           "1, 512, 8192, 10" worldRegistered).
  vm_compute. discriminate.
Qed.

(** A line with more fields than statistics is fatal as well. *)
Example long_line_is_fatal :
  scrapeLine decimal.ParseFloat 1700000000
    ("0, 1024, 8192, 15, 3, 42, 120.5, 99" +:+ newline) worldRegistered
  = Exit 1 (logged "invalid nvidia-smi output: 0, 1024, 8192, 15, 3, 42, 120.5, 99"
              (write lastUpdated (float64_of_int64 1700000000) worldRegistered)).
Proof. vm_compute. reflexivity. Qed.

Lemma C3_witness :
  exists w',
    scrapeLine decimal.ParseFloat 1700000000
      ("0, abc, 8192, 15, 3, 42, 120.5" +:+ newline) worldRegistered
    = Exit 1 w'
    /\ (length ["abc"; "8192"; "15"; "3"; "42"; "120.5"] = length stats ->
        exists k stat raw e,
          stats !! k = Some stat
          /\ ["abc"; "8192"; "15"; "3"; "42"; "120.5"] !! k = Some raw
          /\ (decimal.ParseFloat raw).2 = Some e
          /\ Forall (fun r => (decimal.ParseFloat r).2 = None)
               (take k ["abc"; "8192"; "15"; "3"; "42"; "120.5"])
          /\ last (events w') = Some (EvLog (convertError stat raw e))
          /\ forall j stat',
              (k <= j)%nat -> stats !! j = Some stat' ->
              values w' !! seriesOf stat' "0"
              = values worldRegistered !! seriesOf stat' "0").
Proof.
  apply (C3_parse_failure_is_fatal decimal.ParseFloat 1700000000
           "0, abc, 8192, 15, 3, 42, 120.5" "0"
           ["abc"; "8192"; "15"; "3"; "42"; "120.5"] worldRegistered).
  - vm_compute. reflexivity.
  - apply Exists_cons_hd. vm_compute. discriminate.
Defined.

(** The line of the specification with [abc] for its first statistic:
    the message names the statistic, the field and the error, and no
    gauge of a statistic is there afterwards. *)
Example non_numeric_field_is_fatal :
  scrapeLine decimal.ParseFloat 1700000000
    ("0, abc, 8192, 15, 3, 42, 120.5" +:+ newline) worldRegistered
  = Exit 1
      (logged ("error converting memory.used value (abc) to float: "
               +:+ decimal.syntaxError "abc")
         (write lastUpdated 1700000000%float worldRegistered)).
Proof. vm_compute. reflexivity. Qed.

Lemma C9_witness :
  exists w',
    scrapeLine decimal.ParseFloat 1700000000
      ("0, 12, abc, 15, 3, 42, 120.5" +:+ newline) worldRegistered
    = Exit 1 w'
    /\ (forall i stat v,
          stats !! i = Some stat -> [12%float] !! i = Some v ->
          values w' !! seriesOf stat "0" = Some v)
    /\ (forall j stat,
          (1 <= j)%nat -> stats !! j = Some stat ->
          values w' !! seriesOf stat "0" = values worldRegistered !! seriesOf stat "0").
Proof.
  apply (C9_failing_line_updates_earlier_gauges decimal.ParseFloat 1700000000
           "0, 12, abc, 15, 3, 42, 120.5" "0"
           ["12"; "abc"; "15"; "3"; "42"; "120.5"] 1 [12%float] "abc"
           (decimal.syntaxError "abc") 0%float worldRegistered).
  - vm_compute. reflexivity.
  - reflexivity.
  - constructor; [vm_compute; reflexivity|constructor].
  - reflexivity.
  - vm_compute. reflexivity.
Defined.

(** After a good line and a line that fails at its second statistic,
    the registry holds the memory used of the second line next to the
    memory total of the first. *)
Example failing_line_leaves_a_mixture :
  exists w1 w2,
    scrapeLine decimal.ParseFloat 1700000000 (exampleLine +:+ newline) worldRegistered
    = Return tt w1
    /\ scrapeLine decimal.ParseFloat 1700000005
         ("0, 2048, abc, 15, 3, 42, 120.5" +:+ newline) w1
       = Exit 1 w2
    /\ values w2 !! ("nvidia_memory_used_megabytes", [("gpu", "0")]) = Some 2048%float
    /\ values w2 !! ("nvidia_memory_total_megabytes", [("gpu", "0")]) = Some 8192%float.
Proof.
  eexists. eexists. split; [vm_compute; reflexivity|].
  split; [vm_compute; reflexivity|]. split; vm_compute; reflexivity.
Qed.

Lemma C10_witness :
  let o := default (Panicked "" world0)
             (scrapeLoop decimal.ParseFloat 3 exampleClock 0 exampleOutput worldRegistered) in
  (forall k, is_Some (values worldRegistered !! k) -> is_Some (values (worldOf o) !! k))
  /\ (forall stat g,
        g ∉ deviceOf <$> Lines exampleOutput ->
        values (worldOf o) !! seriesOf stat g = values worldRegistered !! seriesOf stat g)
  /\ (forall now body w1 stat g,
        g <> deviceOf body ->
        values (worldOf (scrapeLine decimal.ParseFloat now (body +:+ newline) w1))
          !! seriesOf stat g
        = values w1 !! seriesOf stat g).
Proof.
  intros o.
  apply (C10_gauge_values_are_never_deleted decimal.ParseFloat 3 exampleClock 0
           exampleOutput worldRegistered o).
  vm_compute. reflexivity.
Defined.

(** The first device keeps its values while the lines of the second
    are read, to the end of the process. *)
Example absent_device_keeps_its_values :
  exists w',
    scrapeLoop decimal.ParseFloat 3 exampleClock 0 exampleOutput worldRegistered
    = Some (Exit 1 w')
    /\ last (events w') = Some (EvLog "error reading nvidia-smi output: EOF")
    /\ values w' !! ("nvidia_power_draw_watts", [("gpu", "0")]) = Some 120.5%float
    /\ values w' !! ("nvidia_power_draw_watts", [("gpu", "1")]) = Some 99.5%float.
Proof.
  eexists. split; [vm_compute; reflexivity|]. repeat split; vm_compute; reflexivity.
Qed.

(** Against C4 as stated: a line that fails the check on the number of
    fields, and one that fails at a float, both leave the process with
    the time stamp changed from 0 to the time of the read. *)
Lemma C4_counterexample :
  length (strings.Split "1, 512, 8192, 10" ", ") = 4%nat
  /\ length stats = 6%nat
  /\ scrapeLine decimal.ParseFloat 1700000000 ("1, 512, 8192, 10" +:+ newline)
       worldRegistered
     = Exit 1 (logged "invalid nvidia-smi output: 1, 512, 8192, 10"
                 (write lastUpdated 1700000000%float worldRegistered))
  /\ values worldRegistered !! lastUpdated = Some 0%float
  /\ values (logged "invalid nvidia-smi output: 1, 512, 8192, 10"
               (write lastUpdated 1700000000%float worldRegistered)) !! lastUpdated
     = Some 1700000000%float
  /\ PrimFloat.eqb 0 1700000000 = false
  /\ (decimal.ParseFloat "abc").2 = Some (decimal.syntaxError "abc")
  /\ values (worldOf (scrapeLine decimal.ParseFloat 1700000000
                        ("0, abc, 8192, 15, 3, 42, 120.5" +:+ newline) worldRegistered))
       !! lastUpdated
     = Some 1700000000%float.
Proof. repeat split; vm_compute; reflexivity. Qed.



(** The floats of the intervals of the examples are not negative. *)
Example interval_floats :
  Prim2SF (time.Seconds 1500000000) = S754_finite false 6755399441055744 (-52)
  /\ Prim2SF (time.Seconds 400000000) = S754_finite false 7205759403792794 (-54)
  /\ Prim2SF (time.Seconds 0) = S754_zero false.
Proof. repeat split; vm_compute; reflexivity. Qed.

(** The intervals of 0.4 s and of 0.5 s are refused, that of 5 s is
    passed on as it is, that of 2.5 s as 2. *)
Example interval_examples :
  scrapeStart 400000000 world0
  = Exit 1 (logged "interval must be at least 1 second" worldRegistered)
  /\ scrapeStart 500000000 world0
     = Exit 1 (logged "interval must be at least 1 second" worldRegistered)
  /\ scrapeStart 5000000000 world0 = Return (commandArgs "5") (worldStarted "5")
  /\ scrapeStart 2500000000 world0 = Return (commandArgs "2") (worldStarted "2").
Proof. repeat split; vm_compute; reflexivity. Qed.

(** Against C6 as stated: the label of every statistic is [gpu], not
    [device]; a gauge asked for with the label [device] is a panic. *)
Lemma C6_counterexample :
  Forall (fun s => prometheus.variableLabels (metric s) = ["gpu"]
                   /\ prometheus.variableLabels (metric s) <> ["device"]) stats
  /\ Forall (fun s => panicked (prometheus.With (metric s) [("device", "0")]
                                  worldRegistered) = true) stats
  /\ events (worldOf (scrapeLine decimal.ParseFloat 1700000000
                        (exampleLine +:+ newline) world0))
     = [EvSet "nvidia_last_updated_time" [] 1700000000;
        EvSet "nvidia_memory_used_megabytes" [("gpu", "0")] 1024;
        EvSet "nvidia_memory_total_megabytes" [("gpu", "0")] 8192;
        EvSet "nvidia_gpu_utilization_percent" [("gpu", "0")] 15;
        EvSet "nvidia_memory_utilization_percent" [("gpu", "0")] 3;
        EvSet "nvidia_temperature_celsius" [("gpu", "0")] 42;
        EvSet "nvidia_power_draw_watts" [("gpu", "0")] 120.5].
Proof.
  split; [|split].
  - repeat constructor; discriminate.
  - repeat constructor.
  - vm_compute. reflexivity.
Qed.

(** ** The revision without the check (src/unnamed/part_000) *)

(** On a line with a field for each statistic the two revisions do the
    same. *)
Lemma Earlier_same_on_full_lines (ParseFloat : string -> float * option string)
    (now : Z) (body : string) (c : ascii) (w : World) :
  length (strings.Split body ", ") = S (length stats) ->
  Earlier.scrapeLine ParseFloat now (body +:+ String c "") w
  = scrapeLine ParseFloat now (body +:+ String c "") w.
Proof.
  intros Hn. rewrite scrapeLine_eq. unfold Earlier.scrapeLine.
  rewrite (bind_Return _ _ _ _ _ (Set_write _ _ _)).
  rewrite (bind_Return _ _ _ _ _ (dropLast_snoc _ _ _)).
  unfold setStats.
  assert ((length (strings.Split body ", ") =? length stats + 1)%nat = true) as ->.
  { apply Nat.eqb_eq. lia. }
  reflexivity.
Qed.

(** Without the check, a line with too few fields, the empty line
    among them, is a panic on an index out of range, and the fields of
    a line beyond those of the statistics are passed over. *)
Example Earlier_other_lines :
  panicked (Earlier.scrapeLine decimal.ParseFloat 1700000000
              ("1, 512, 8192, 10" +:+ newline) worldRegistered) = true
  /\ panicked (Earlier.scrapeLine decimal.ParseFloat 1700000000 newline
                 worldRegistered) = true
  /\ Earlier.scrapeLine decimal.ParseFloat 1700000000
       ("0, 1024, 8192, 15, 3, 42, 120.5, 99" +:+ newline) worldRegistered
     = scrapeLine decimal.ParseFloat 1700000000 (exampleLine +:+ newline) worldRegistered.
Proof. repeat split; vm_compute; reflexivity. Qed.

(** C2, on the revision without the check (src/unnamed/part_000): a
    line of eight fields is accepted, its last field passed over in
    silence and the six gauges set as by the line of seven; a line of
    four fields sets three gauges and is then a panic on an index out
    of range, not an exit that reports the line. *)
Theorem C2_unchecked_revision_cuts_long_lines :
  Earlier.scrapeLine decimal.ParseFloat 1700000000
    ("0, 1024, 8192, 15, 3, 42, 120.5, 99" +:+ newline) worldRegistered
  = Return tt
      (writes "0" (zip stats [1024; 8192; 15; 3; 42; 120.5]%float)
         (write lastUpdated 1700000000%float worldRegistered))
  /\ Earlier.scrapeLine decimal.ParseFloat 1700000000
       ("1, 512, 8192, 10" +:+ newline) worldRegistered
     = Panicked "index out of range"
         (writes "1" (zip stats [512; 8192; 10]%float)
            (write lastUpdated 1700000000%float worldRegistered)).
Proof. split; vm_compute; reflexivity. Qed.

(** C8, on the revision without the check (src/unnamed/part_000): the
    empty line splits into the one empty field, so the index 1 of the
    first statistic is out of range and the turn of the loop is a
    panic; so is the index 4 on a line of four fields. *)
Theorem C8_unchecked_revision_index_out_of_range :
  strings.Split "" ", " = [""]
  /\ Earlier.scrapeLine decimal.ParseFloat 1700000000 newline worldRegistered
     = Panicked "index out of range"
         (write lastUpdated 1700000000%float worldRegistered)
  /\ panicked (Earlier.scrapeLine decimal.ParseFloat 1700000000
                 ("1, 512, 8192, 10" +:+ newline) worldRegistered) = true.
Proof. repeat split; vm_compute; reflexivity. Qed.

(** ** The loop of [scrapeSmi] on the output of the subprocess *)

Section LoopFacts.

Variable ParseFloat : string -> float * option string.

Lemma noNewline_String (c : ascii) (s : string) :
  noNewline (String c s) = true -> Ascii.eqb c "010" = false /\ noNewline s = true.
Proof.
  unfold noNewline, strings.Contains, newline. cbn [strings.Index strings.HasPrefix].
  destruct (Ascii.eqb c "010"); [done|]. simpl.
  by destruct (strings.Index s (String "010" "")).
Qed.

(** [ReadBytes] stops at the first line feed. *)
Lemma ReadBytes_app_line (body rest : string) :
  noNewline body = true ->
  bufio.ReadBytes "010" (body +:+ newline +:+ rest) = (body +:+ newline, Some rest).
Proof.
  induction body as [|c body IH]; intros Hb; [reflexivity|].
  apply noNewline_String in Hb as [Hc Hb].
  change (String c body +:+ newline +:+ rest) with (String c (body +:+ newline +:+ rest)).
  cbn [bufio.ReadBytes]. rewrite Hc, (IH Hb). reflexivity.
Qed.

(** Bytes without line feed at the end of the stream stay with the
    last, unfinished line. *)
Lemma ReadBytes_app_partial (s p : string) :
  noNewline p = true ->
  bufio.ReadBytes "010" (s +:+ p)
  = match bufio.ReadBytes "010" s with
    | (line, Some rest) => (line, Some (rest +:+ p))
    | (line, None) => (line +:+ p, None)
    end.
Proof.
  intros Hp. induction s as [|c s IH].
  - change ("" +:+ p) with p. cbn [bufio.ReadBytes]. clear -Hp.
    induction p as [|c p IH]; [done|].
    apply noNewline_String in Hp as [Hc Hp]. cbn [bufio.ReadBytes].
    rewrite Hc, (IH Hp). reflexivity.
  - change (String c s +:+ p) with (String c (s +:+ p)). cbn [bufio.ReadBytes].
    destruct (Ascii.eqb c "010"); [done|]. rewrite IH.
    by destruct (bufio.ReadBytes "010" s) as [line [rest|]].
Qed.

(** A turn of the loop on a stream that starts with a line. *)
Lemma scrapeLoop_line (fuel : nat) (clock : nat -> Z) (n : nat) (body rest : string)
    (w : World) :
  noNewline body = true ->
  scrapeLoop ParseFloat (S fuel) clock n (body +:+ newline +:+ rest) w
  = match scrapeLine ParseFloat (clock n) (body +:+ newline) w with
    | Return _ w' => scrapeLoop ParseFloat fuel clock (S n) rest w'
    | o => Some o
    end.
Proof.
  intros Hb. cbn [scrapeLoop]. by rewrite (ReadBytes_app_line body rest Hb).
Qed.

(** X1: a line that is not accepted ends the process at once: whatever
    the subprocess wrote after it is never read and has no effect. *)
Theorem X1_rejected_line_ends_the_process (fuel : nat) (clock : nat -> Z) (n : nat)
    (body rest : string) (w w' : World) (code : Z) :
  noNewline body = true ->
  scrapeLine ParseFloat (clock n) (body +:+ newline) w = Exit code w' ->
  scrapeLoop ParseFloat (S fuel) clock n (body +:+ newline +:+ rest) w
  = Some (Exit 1 w').
Proof.
  intros Hb Hline. rewrite (scrapeLoop_line fuel clock n body rest w Hb), Hline.
  by rewrite (scrapeLine_exit_code ParseFloat _ _ _ _ _ Hline).
Qed.

(** X2: the bytes after the last line feed of the output are never
    looked at: with or without them, the loop does the same and ends
    on the same read error. *)
Theorem X2_unfinished_last_line_is_discarded (fuel : nat) (clock : nat -> Z) (n : nat)
    (stdout partial : string) (w : World) :
  noNewline partial = true ->
  scrapeLoop ParseFloat fuel clock n (stdout +:+ partial) w
  = scrapeLoop ParseFloat fuel clock n stdout w.
Proof.
  intros Hp. revert n stdout w.
  induction fuel as [|fuel IH]; intros n stdout w; [done|].
  cbn [scrapeLoop]. rewrite (ReadBytes_app_partial stdout partial Hp).
  destruct (bufio.ReadBytes "010" stdout) as [line [rest|]]; [|done].
  destruct (scrapeLine ParseFloat (clock n) line w); [apply IH|done|done].
Qed.

(** An accepted line: the world it leaves. *)
Lemma scrapeLine_ok (now : Z) (body gpu : string) (fields : list string)
    (vals : list float) (w : World) :
  strings.Split body ", " = gpu :: fields ->
  length fields = length stats ->
  Forall2 (fun raw v => ParseFloat raw = (v, None)) fields vals ->
  scrapeLine ParseFloat now (body +:+ newline) w
  = Return tt (writes gpu (zip stats vals) (write lastUpdated (float64_of_int64 now) w)).
Proof.
  intros Hsplit Hlen Hv. unfold newline. rewrite scrapeLine_eq, Hsplit.
  pose proof (Forall2_length _ _ _ Hv) as Hlv.
  rewrite (setStats_floats ParseFloat body gpu fields (length stats) vals); [|done|].
  2:{ by rewrite take_ge by lia. }
  by rewrite drop_all, firstn_all.
Qed.

Lemma parsed_values (fields : list string) :
  Forall (fun r => (ParseFloat r).2 = None) fields ->
  Forall2 (fun raw v => ParseFloat raw = (v, None)) fields
    ((fun r => (ParseFloat r).1) <$> fields).
Proof.
  intros H. apply Forall2_fmap_r, Forall_Forall2_diag.
  eapply Forall_impl; [exact H|]. intros r. unfold compose.
  destruct (ParseFloat r) as [f o]. simpl. by intros ->.
Qed.

(** What an accepted line was, and the world it left. *)
Lemma scrapeLine_Return_inv (now : Z) (body : string) (w w' : World) :
  scrapeLine ParseFloat now (body +:+ newline) w = Return tt w' ->
  exists gpu fields vals,
    strings.Split body ", " = gpu :: fields
    /\ length fields = length stats
    /\ Forall2 (fun raw v => ParseFloat raw = (v, None)) fields vals
    /\ w' = writes gpu (zip stats vals) (write lastUpdated (float64_of_int64 now) w).
Proof.
  intros Hrun.
  destruct (strings.Split body ", ") as [|gpu fields] eqn:Hsplit.
  { pose proof (splitFields_not_nil body) as Hne.
    rewrite <- Split_splitFields in Hne. by rewrite <- Hsplit in Hne. }
  exists gpu, fields, ((fun r => (ParseFloat r).1) <$> fields).
  split; [done|].
  destruct (decide (length fields = length stats)) as [Hlen|Hlen].
  2:{ rewrite (scrapeLine_bad_count ParseFloat) in Hrun; [done|].
      rewrite Hsplit. change (length (gpu :: fields)) with (S (length fields)). lia. }
  split; [done|].
  destruct (decide (Forall (fun r => (ParseFloat r).2 = None) fields)) as [Hall|Hno].
  - split; [by apply parsed_values|].
    rewrite (scrapeLine_ok now body gpu fields _ w Hsplit Hlen (parsed_values _ Hall))
      in Hrun.
    by injection Hrun as <-.
  - apply not_Forall_Exists in Hno; [|apply _].
    destruct (first_failure ParseFloat fields Hno) as (k & raw & e & Hk & He & Hall).
    destruct (ParseFloat raw) as [zero e'] eqn:Hp. simpl in He. subst e'.
    destruct (scrapeLine_failure_at ParseFloat now body gpu fields k _ raw e zero w
                Hsplit Hlen (parsed_values _ Hall) Hk Hp) as (stat & _ & Hexit).
    by rewrite Hexit in Hrun.
Qed.

(** X3: the lines that the loop accepts are exactly those with a field
    for the device and one for each statistic, every one of these a
    float: no other line makes it to the next turn. *)
Theorem X3_accepted_lines (now : Z) (body : string) (w : World) :
  (exists w', scrapeLine ParseFloat now (body +:+ newline) w = Return tt w')
  <-> exists gpu fields,
        strings.Split body ", " = gpu :: fields
        /\ length fields = length stats
        /\ Forall (fun r => (ParseFloat r).2 = None) fields.
Proof.
  split.
  - intros [w' Hrun].
    destruct (scrapeLine_Return_inv now body w w' Hrun)
      as (gpu & fields & vals & Hsplit & Hlen & Hv & _).
    exists gpu, fields. split; [done|]. split; [done|].
    apply Forall_forall. intros r Hr.
    apply list_elem_of_lookup in Hr as [i Hi].
    destruct (Forall2_lookup_l _ _ _ _ _ Hv Hi) as (v & _ & Hp). by rewrite Hp.
  - intros (gpu & fields & Hsplit & Hlen & Hall). eexists.
    by apply (scrapeLine_ok now body gpu fields _ w Hsplit Hlen (parsed_values _ Hall)).
Qed.

(** The loop drops no series and leaves alone those of the devices
    that no line names. *)
Lemma scrapeLoop_keeps (fuel : nat) (clock : nat -> Z) :
  forall (n : nat) (stdout : string) (w : World) (o : Outcome unit),
    scrapeLoop ParseFloat fuel clock n stdout w = Some o ->
    (forall k, is_Some (values w !! k) -> is_Some (values (worldOf o) !! k))
    /\ (forall stat g,
          g ∉ deviceOf <$> Lines stdout ->
          values (worldOf o) !! seriesOf stat g = values w !! seriesOf stat g).
Proof.
  induction fuel as [|fuel IH]; intros n stdout w o; [done|].
  cbn [scrapeLoop].
  destruct (bufio.ReadBytes "010" stdout) as [line [rest|]] eqn:Hr.
  - destruct (ReadBytes_line _ _ _ Hr) as (body & -> & ->).
    destruct (scrapeLine_keeps ParseFloat (clock n) body w) as [Hd Hv].
    destruct (scrapeLine ParseFloat (clock n) (body +:+ newline) w)
      as [[] w'|code w'|msg w'] eqn:Hline; simpl in Hd, Hv.
    + intros Hrun. destruct (IH _ _ _ _ Hrun) as [Hd' Hv']. split; [auto|].
      intros stat g Hg. rewrite fmap_cons, not_elem_of_cons in Hg.
      destruct Hg as [Hg Hg']. rewrite Hv' by done. by apply Hv.
    + intros [= <-]. split; [done|]. intros stat g Hg.
      rewrite fmap_cons, not_elem_of_cons in Hg. apply Hv, Hg.
    + intros [= <-]. split; [done|]. intros stat g Hg.
      rewrite fmap_cons, not_elem_of_cons in Hg. apply Hv, Hg.
  - by intros [= <-].
Qed.

(** X4: a line that is accepted, followed by any output in which no
    line names its device: when the process ends (on the read error or
    on a later line), the gauges of that device still hold the values
    of that line. *)
Theorem X4_values_of_a_line_last_to_the_end (fuel : nat) (clock : nat -> Z) (n : nat)
    (body gpu rest : string) (fields : list string) (vals : list float) (w : World) :
  noNewline body = true ->
  strings.Split body ", " = gpu :: fields ->
  length fields = length stats ->
  Forall2 (fun raw v => ParseFloat raw = (v, None)) fields vals ->
  gpu ∉ deviceOf <$> Lines rest ->
  (String.length rest < fuel)%nat ->
  exists w',
    scrapeLoop ParseFloat (S fuel) clock n (body +:+ newline +:+ rest) w
    = Some (Exit 1 w')
    /\ forall i stat v,
        stats !! i = Some stat -> vals !! i = Some v ->
        values w' !! seriesOf stat gpu = Some v.
Proof.
  intros Hb Hsplit Hlen Hv Hg Hfuel.
  rewrite (scrapeLoop_line fuel clock n body rest w Hb).
  rewrite (scrapeLine_ok (clock n) body gpu fields vals w Hsplit Hlen Hv).
  destruct (scrapeLoop_exits ParseFloat rest fuel clock (S n)
              (writes gpu (zip stats vals)
                 (write lastUpdated (float64_of_int64 (clock n)) w)) Hfuel)
    as [w' Hrun].
  exists w'. split; [done|]. intros i stat v Hs Hi.
  destruct (scrapeLoop_keeps _ _ _ _ _ _ Hrun) as [_ Hkeep].
  simpl in Hkeep. rewrite (Hkeep stat gpu Hg).
  pose proof (Forall2_length _ _ _ Hv) as Hlv.
  destruct (zip_stats_lookup (length stats) i vals stat v) as [Hz Hnd]; [|done..|].
  { rewrite length_take. lia. }
  rewrite firstn_all in Hz, Hnd. by eapply writes_lookup.
Qed.

(** The loop registers nothing and starts nothing: it only sets gauges
    and logs. *)
Lemma scrapeLoop_effects (fuel : nat) (clock : nat -> Z) :
  forall (n : nat) (stdout : string) (w : World) (o : Outcome unit),
    scrapeLoop ParseFloat fuel clock n stdout w = Some o ->
    registered (worldOf o) = registered w
    /\ exists rest, events (worldOf o) = events w ++ rest /\ Forall loopEffect rest.
Proof.
  assert (forall g e, lineEffect g e -> loopEffect e) as Hle.
  { intros g [] He; done. }
  induction fuel as [|fuel IH]; intros n stdout w o; [done|].
  cbn [scrapeLoop].
  destruct (bufio.ReadBytes "010" stdout) as [line [rest|]] eqn:Hr.
  - destruct (ReadBytes_line _ _ _ Hr) as (body & -> & _).
    destruct (scrapeLine_step ParseFloat (clock n) body w)
      as (Hreg & (r1 & He & Hf) & _).
    assert (registered (worldOf (scrapeLine ParseFloat (clock n) (body +:+ newline) w))
            = registered w
            /\ exists r, events (worldOf (scrapeLine ParseFloat (clock n)
                                            (body +:+ newline) w))
                         = events w ++ r /\ Forall loopEffect r) as [Hreg1 (r & He1 & Hf1)].
    { split; [done|]. eexists. split.
      - rewrite He. simpl. by rewrite <- app_assoc.
      - constructor; [done|]. eapply Forall_impl; [exact Hf|]. apply Hle. }
    destruct (scrapeLine ParseFloat (clock n) (body +:+ newline) w)
      as [[] w'|code w'|msg w'] eqn:Hline; simpl in Hreg1, He1.
    + intros Hrun. destruct (IH _ _ _ _ Hrun) as (Hreg2 & r2 & He2 & Hf2).
      split; [congruence|]. exists (r ++ r2). split; [|by apply Forall_app].
      by rewrite He2, He1, app_assoc.
    + intros [= <-]. split; [done|]. by exists r.
    + intros [= <-]. split; [done|]. by exists r.
  - intros [= <-]. split; [done|]. eexists. split; [done|]. by repeat constructor.
Qed.

(** X5: [scrapeSmi] never returns, whatever the interval and whatever
    the subprocess writes: it ends in [os.Exit(1)], without a panic.
    When the interval is refused it ends before anything is read: the
    world is the one with the gauges registered and the message
    logged, independent of the output. *)
Theorem X5_scrapeSmi_always_exits (fuel : nat) (interval : Z) (clock : nat -> Z)
    (stdout : string) :
  (String.length stdout < fuel)%nat ->
  exists w',
    scrapeSmi ParseFloat fuel interval clock stdout world0 = Some (Exit 1 w')
    /\ (fmt.Sprintf_0f (time.Seconds interval) = "0" ->
        w' = logged "interval must be at least 1 second" worldRegistered).
Proof.
  intros Hfuel. unfold scrapeSmi. rewrite scrapeStart_eq.
  destruct (String.eqb _ "0") eqn:Hs.
  - eexists. split; [reflexivity|done].
  - destruct (scrapeLoop_exits ParseFloat stdout fuel clock 0
                (worldStarted (fmt.Sprintf_0f (time.Seconds interval))) Hfuel)
      as [w' Hrun].
    exists w'. split; [done|]. intros Hz. apply String.eqb_neq in Hs. done.
Qed.

(** X6: with an interval that is not refused, [scrapeSmi] registers its
    seven gauges, logs and starts the one command, and only then reads:
    everything that follows is a gauge being set or a message, so no
    second command is started and nothing is registered later. *)
Theorem X6_one_command_started_before_reading (fuel : nat) (interval : Z)
    (clock : nat -> Z) (stdout : string) (o : Outcome unit) :
  fmt.Sprintf_0f (time.Seconds interval) <> "0" ->
  scrapeSmi ParseFloat fuel interval clock stdout world0 = Some o ->
  registered (worldOf o) = registered worldRegistered
  /\ exists rest,
      events (worldOf o)
      = events worldRegistered
        ++ [EvLog ("Running " +:+ strings.Join
                     (commandArgs (fmt.Sprintf_0f (time.Seconds interval))) " ");
            EvStart (commandArgs (fmt.Sprintf_0f (time.Seconds interval)))]
        ++ rest
      /\ Forall loopEffect rest.
Proof.
  intros Hs. unfold scrapeSmi. rewrite scrapeStart_eq.
  apply String.eqb_neq in Hs. rewrite Hs. intros Hrun.
  destruct (scrapeLoop_effects _ _ _ _ _ _ Hrun) as (Hreg & rest & He & Hf).
  split; [done|]. exists rest. split; [|done].
  rewrite He. unfold worldStarted. cbn [events]. by rewrite <- app_assoc.
Qed.

Lemma lastWrite_snoc (gpu : string) (svs : list (nvidiaStat * float))
    (sv : nvidiaStat * float) (k : Series) :
  lastWrite gpu (svs ++ [sv]) k
  = if decide (seriesOf sv.1 gpu = k) then Some sv.2 else lastWrite gpu svs k.
Proof. unfold lastWrite. by rewrite foldl_app. Qed.

(** The values after [writes]: what was written last, else what was
    there. *)
Lemma writes_values (gpu : string) (svs : list (nvidiaStat * float)) (w : World)
    (k : Series) :
  values (writes gpu svs w) !! k
  = match lastWrite gpu svs k with Some v => Some v | None => values w !! k end.
Proof.
  induction svs as [|[s v] svs IH] using rev_ind; [done|].
  rewrite writes_snoc, lastWrite_snoc. simpl.
  destruct (decide (seriesOf s gpu = k)) as [<-|Hne].
  - by rewrite lookup_insert_eq.
  - by rewrite lookup_insert_ne.
Qed.

Lemma lastWrite_Some (gpu : string) (svs : list (nvidiaStat * float)) (k : Series)
    (v : float) :
  lastWrite gpu svs k = Some v -> k.2 = [("gpu", gpu)].
Proof.
  induction svs as [|[s x] svs IH] using rev_ind; [done|].
  rewrite lastWrite_snoc. simpl. destruct (decide (seriesOf s gpu = k)) as [<-|]; [done|].
  apply IH.
Qed.

(** X7: an accepted line that comes again is accepted again, and
    changes nothing but the time stamp. *)
Theorem X7_repeated_line_only_moves_the_time_stamp (now1 now2 : Z) (body : string)
    (w w1 : World) :
  scrapeLine ParseFloat now1 (body +:+ newline) w = Return tt w1 ->
  exists w2,
    scrapeLine ParseFloat now2 (body +:+ newline) w1 = Return tt w2
    /\ values w2 = <[lastUpdated := float64_of_int64 now2]> (values w1).
Proof.
  intros Hrun.
  destruct (scrapeLine_Return_inv now1 body w w1 Hrun)
    as (gpu & fields & vals & Hsplit & Hlen & Hv & ->).
  eexists. split; [by apply (scrapeLine_ok now2 body gpu fields vals)|].
  apply map_eq. intros k. rewrite writes_values.
  destruct (decide (lastUpdated = k)) as [<-|Hk].
  - rewrite lookup_insert_eq.
    destruct (lastWrite gpu (zip stats vals) lastUpdated) as [v|] eqn:Hl.
    + by apply lastWrite_Some in Hl.
    + cbn [values write]. apply lookup_insert_eq.
  - rewrite (lookup_insert_ne _ lastUpdated k) by done.
    rewrite writes_values. cbn [values write].
    destruct (lastWrite gpu (zip stats vals) k) eqn:Hl; [done|].
    rewrite (lookup_insert_ne _ lastUpdated k) by done.
    by rewrite writes_values, Hl.
Qed.

(** X8: two accepted lines for two devices can come in either order:
    read one after the other at the same times, they leave the same
    values in the registry. *)
Theorem X8_lines_of_two_devices_commute (t1 t1' t2 : Z) (a b : string)
    (w wa wb : World) :
  deviceOf a <> deviceOf b ->
  scrapeLine ParseFloat t1 (a +:+ newline) w = Return tt wa ->
  scrapeLine ParseFloat t1' (b +:+ newline) w = Return tt wb ->
  exists wab wba,
    scrapeLine ParseFloat t2 (b +:+ newline) wa = Return tt wab
    /\ scrapeLine ParseFloat t2 (a +:+ newline) wb = Return tt wba
    /\ values wab = values wba.
Proof.
  intros Hne Ha Hb.
  destruct (scrapeLine_Return_inv t1 a w wa Ha)
    as (ga & fa & va & Hsa & Hla & Hva & ->).
  destruct (scrapeLine_Return_inv t1' b w wb Hb)
    as (gb & fb & vb & Hsb & Hlb & Hvb & ->).
  unfold deviceOf in Hne. rewrite Hsa, Hsb in Hne. simpl in Hne.
  eexists. eexists.
  split; [by apply (scrapeLine_ok t2 b gb fb vb)|].
  split; [by apply (scrapeLine_ok t2 a ga fa va)|].
  apply map_eq. intros k. rewrite !writes_values. cbn [values write].
  destruct (lastWrite gb (zip stats vb) k) as [v|] eqn:Hkb;
    destruct (lastWrite ga (zip stats va) k) as [v'|] eqn:Hka.
  - apply lastWrite_Some in Hkb, Hka. congruence.
  - destruct (decide (lastUpdated = k)) as [<-|Hk].
    { by apply lastWrite_Some in Hkb. }
    rewrite lookup_insert_ne by done. by rewrite writes_values, Hkb.
  - destruct (decide (lastUpdated = k)) as [<-|Hk].
    { by apply lastWrite_Some in Hka. }
    rewrite lookup_insert_ne by done. by rewrite writes_values, Hka.
  - destruct (decide (lastUpdated = k)) as [<-|Hk].
    { by rewrite !lookup_insert_eq. }
    rewrite !(lookup_insert_ne _ lastUpdated k) by done.
    rewrite !writes_values, Hka, Hkb. cbn [values write].
    by rewrite !lookup_insert_ne.
Qed.

(** ** The revision without the check, on every line *)

(** The loop over the statistics only reads the fields at their
    indices. *)
Lemma forRange_data_ext (gpu : string) (data data' : list string)
    (xs : list nvidiaStat) :
  forall (i : nat) (w : World),
    (forall j, (i < j <= i + length xs)%nat -> data !! j = data' !! j) ->
    forRange i xs (setStat ParseFloat gpu data) w
    = forRange i xs (setStat ParseFloat gpu data') w.
Proof.
  induction xs as [|x xs IH]; intros i w Hd; [done|].
  cbn [forRange]. unfold mbind, M_bind.
  assert (setStat ParseFloat gpu data i x w = setStat ParseFloat gpu data' i x w) as ->.
  { unfold setStat, index. rewrite (Hd (i + 1)%nat); [done|]. simpl. lia. }
  destruct (setStat ParseFloat gpu data' i x w); [|done|done].
  apply IH. intros j Hj. apply Hd. simpl. lia.
Qed.

Lemma Earlier_scrapeLine_eq (now : Z) (body : string) (c : ascii) (w : World) :
  Earlier.scrapeLine ParseFloat now (body +:+ String c "") w
  = match strings.Split body ", " with
    | gpu :: fields =>
        forRange 0 stats (setStat ParseFloat gpu (gpu :: fields))
          (write lastUpdated (float64_of_int64 now) w)
    | [] => Panicked "index out of range" (write lastUpdated (float64_of_int64 now) w)
    end.
Proof.
  unfold Earlier.scrapeLine.
  rewrite (bind_Return _ _ _ _ _ (Set_write _ _ _)).
  rewrite (bind_Return _ _ _ _ _ (dropLast_snoc _ _ _)).
  by destruct (strings.Split body ", ").
Qed.

(** X9: in the revision without the check, the fields of a line beyond
    that of the last statistic are passed over in silence: the line
    does what the checked revision does on the line cut after the
    field of the last statistic. *)
Theorem X9_Earlier_passes_over_extra_fields (now : Z) (body gpu : string)
    (fields extra : list string) (w : World) :
  strings.Split body ", " = gpu :: fields ++ extra ->
  length fields = length stats ->
  Earlier.scrapeLine ParseFloat now (body +:+ newline) w
  = scrapeLine ParseFloat now (strings.Join (gpu :: fields) ", " +:+ newline) w.
Proof.
  intros Hsplit Hlen. unfold newline.
  rewrite Earlier_scrapeLine_eq, Hsplit, scrapeLine_eq.
  assert (strings.Split (strings.Join (gpu :: fields) ", ") ", " = gpu :: fields) as ->.
  { apply Split_Join; [done|].
    pose proof (splitFields_sepfree body) as Hf.
    rewrite <- Split_splitFields in Hf. unfold sep in Hf. rewrite Hsplit in Hf.
    by apply (Forall_app _ (gpu :: fields) extra) in Hf as [Hf _]. }
  unfold setStats.
  assert ((length (gpu :: fields) =? length stats + 1)%nat = true) as ->.
  { apply Nat.eqb_eq. change (length (gpu :: fields)) with (S (length fields)). lia. }
  unfold index. cbn [negb lookup list_lookup]. unfold mbind at 1, M_bind, mret, M_ret.
  apply forRange_data_ext. intros j Hj.
  destruct j as [|j]; [lia|]. cbn [lookup list_lookup].
  apply lookup_app_l. lia.
Qed.

(** X10: in the revision without the check, a line with fewer fields
    than statistics, all of them floats, is a panic on an index out of
    range, after the time stamp and the gauges of the fields that are
    there have been set; the empty line is such a line. *)
Theorem X10_Earlier_panics_on_short_lines (now : Z) (body gpu : string)
    (fields : list string) (vals : list float) (w : World) :
  strings.Split body ", " = gpu :: fields ->
  (length fields < length stats)%nat ->
  Forall2 (fun raw v => ParseFloat raw = (v, None)) fields vals ->
  Earlier.scrapeLine ParseFloat now (body +:+ newline) w
  = Panicked "index out of range"
      (writes gpu (zip stats vals) (write lastUpdated (float64_of_int64 now) w)).
Proof.
  intros Hsplit Hlen Hv. unfold newline. rewrite Earlier_scrapeLine_eq, Hsplit.
  pose proof (Forall2_length _ _ _ Hv) as Hlv.
  destruct (lookup_lt_is_Some_2 stats (length fields) Hlen) as [x Hx].
  rewrite <- (take_drop (length fields) stats) at 1.
  rewrite (forRange_floats ParseFloat gpu (gpu :: fields) (take (length fields) stats)
             (drop (length fields) stats) 0 vals).
  - rewrite (drop_S _ _ _ Hx). cbn [forRange]. unfold mbind, M_bind.
    assert (prometheus.variableLabels (metric x) = ["gpu"]) as Hl.
    { apply (proj1 (Forall_forall _ _) stats_labels).
      by apply list_elem_of_lookup_2 in Hx. }
    pose proof (setStat_cases ParseFloat gpu (gpu :: fields)
                  (0 + length (take (length fields) stats))
                  x (writes gpu (zip (take (length fields) stats) vals)
                       (write lastUpdated (float64_of_int64 now) w)) Hl) as Hc.
    rewrite lookup_ge_None_2 in Hc.
    2:{ rewrite length_take. change (length (gpu :: fields)) with (S (length fields)).
        lia. }
    rewrite Hc. f_equal. f_equal. rewrite Hlv. apply zip_with_take_l.
  - apply Forall_take, stats_labels.
  - rewrite length_take. lia.
  - intros j v Hj. destruct (Forall2_lookup_r _ _ _ _ _ Hv Hj) as (raw & Hraw & Hp).
    exists raw. split; [|done]. by replace (0 + j + 1)%nat with (S j) by lia.
Qed.

(** X11: on a line with a field for each statistic the two revisions
    do the same. *)
Theorem X11_revisions_agree_on_full_lines (now : Z) (body : string) (w : World) :
  length (strings.Split body ", ") = S (length stats) ->
  Earlier.scrapeLine ParseFloat now (body +:+ newline) w
  = scrapeLine ParseFloat now (body +:+ newline) w.
Proof.
  intros Hn. unfold newline. rewrite Earlier_scrapeLine_eq, scrapeLine_eq.
  unfold setStats.
  assert ((length (strings.Split body ", ") =? length stats + 1)%nat = true) as ->.
  { apply Nat.eqb_eq. lia. }
  by destruct (strings.Split body ", ").
Qed.

End LoopFacts.

(** ** The extras on examples *)

Lemma X1_witness :
  scrapeLoop decimal.ParseFloat 5 exampleClock 0
    ("1, 512, 8192, 10" +:+ newline +:+ exampleOutput) worldRegistered
  = Some (Exit 1 (logged "invalid nvidia-smi output: 1, 512, 8192, 10"
                    (write lastUpdated 1700000000%float worldRegistered))).
Proof.
  apply (X1_rejected_line_ends_the_process decimal.ParseFloat 4 exampleClock 0
           "1, 512, 8192, 10" exampleOutput worldRegistered _ 1).
  - vm_compute. reflexivity.
  - vm_compute. reflexivity.
Defined.

Lemma X2_witness :
  scrapeLoop decimal.ParseFloat 5 exampleClock 0 (exampleOutput +:+ "2, 77") worldRegistered
  = scrapeLoop decimal.ParseFloat 5 exampleClock 0 exampleOutput worldRegistered.
Proof.
  apply (X2_unfinished_last_line_is_discarded decimal.ParseFloat 5 exampleClock 0
           exampleOutput "2, 77" worldRegistered).
  vm_compute. reflexivity.
Defined.

Lemma X4_witness :
  exists w',
    scrapeLoop decimal.ParseFloat 41 exampleClock 0
      (exampleLine +:+ newline +:+ ("1, 512, 8192, 10, 2, 40, 99.5" +:+ newline))
      worldRegistered
    = Some (Exit 1 w')
    /\ forall i stat v,
        stats !! i = Some stat ->
        [1024; 8192; 15; 3; 42; 120.5]%float !! i = Some v ->
        values w' !! seriesOf stat "0" = Some v.
Proof.
  apply (X4_values_of_a_line_last_to_the_end decimal.ParseFloat 40 exampleClock 0
           exampleLine "0" ("1, 512, 8192, 10, 2, 40, 99.5" +:+ newline)
           ["1024"; "8192"; "15"; "3"; "42"; "120.5"]).
  - vm_compute. reflexivity.
  - vm_compute. reflexivity.
  - reflexivity.
  - repeat (constructor; [vm_compute; reflexivity|]). constructor.
  - apply (bool_decide_unpack _). vm_compute. reflexivity.
  - apply Nat.ltb_lt. vm_compute. reflexivity.
Defined.

Lemma X5_witness :
  exists w',
    scrapeSmi decimal.ParseFloat 100 5000000000 exampleClock exampleOutput world0
    = Some (Exit 1 w')
    /\ (fmt.Sprintf_0f (time.Seconds 5000000000) = "0" ->
        w' = logged "interval must be at least 1 second" worldRegistered).
Proof.
  apply (X5_scrapeSmi_always_exits decimal.ParseFloat 100 5000000000 exampleClock
           exampleOutput).
  apply Nat.ltb_lt. vm_compute. reflexivity.
Defined.

Lemma X6_witness :
  let o := default (Panicked "" world0)
             (scrapeSmi decimal.ParseFloat 100 5000000000 exampleClock exampleOutput
                world0) in
  registered (worldOf o) = registered worldRegistered
  /\ exists rest,
      events (worldOf o)
      = events worldRegistered
        ++ [EvLog ("Running " +:+ strings.Join
                     (commandArgs (fmt.Sprintf_0f (time.Seconds 5000000000))) " ");
            EvStart (commandArgs (fmt.Sprintf_0f (time.Seconds 5000000000)))]
        ++ rest
      /\ Forall loopEffect rest.
Proof.
  intros o.
  apply (X6_one_command_started_before_reading decimal.ParseFloat 100 5000000000
           exampleClock exampleOutput o).
  - vm_compute. discriminate.
  - vm_compute. reflexivity.
Defined.

Lemma X7_witness :
  exists w2,
    scrapeLine decimal.ParseFloat 1700000005 (exampleLine +:+ newline)
      (worldOf (scrapeLine decimal.ParseFloat 1700000000 (exampleLine +:+ newline)
                  worldRegistered))
    = Return tt w2
    /\ values w2
       = <[lastUpdated := float64_of_int64 1700000005]>
           (values (worldOf (scrapeLine decimal.ParseFloat 1700000000
                               (exampleLine +:+ newline) worldRegistered))).
Proof.
  apply (X7_repeated_line_only_moves_the_time_stamp decimal.ParseFloat 1700000000
           1700000005 exampleLine worldRegistered).
  vm_compute. reflexivity.
Defined.

Lemma X8_witness :
  exists wab wba,
    scrapeLine decimal.ParseFloat 1700000005
      ("1, 512, 8192, 10, 2, 40, 99.5" +:+ newline)
      (worldOf (scrapeLine decimal.ParseFloat 1700000000 (exampleLine +:+ newline)
                  worldRegistered))
    = Return tt wab
    /\ scrapeLine decimal.ParseFloat 1700000005 (exampleLine +:+ newline)
         (worldOf (scrapeLine decimal.ParseFloat 1700000000
                     ("1, 512, 8192, 10, 2, 40, 99.5" +:+ newline) worldRegistered))
       = Return tt wba
    /\ values wab = values wba.
Proof.
  apply (X8_lines_of_two_devices_commute decimal.ParseFloat 1700000000 1700000000
           1700000005 exampleLine "1, 512, 8192, 10, 2, 40, 99.5" worldRegistered).
  - vm_compute. discriminate.
  - vm_compute. reflexivity.
  - vm_compute. reflexivity.
Defined.

Lemma X9_witness :
  Earlier.scrapeLine decimal.ParseFloat 1700000000
    ("0, 1024, 8192, 15, 3, 42, 120.5, 99, 7" +:+ newline) worldRegistered
  = scrapeLine decimal.ParseFloat 1700000000
      (strings.Join ["0"; "1024"; "8192"; "15"; "3"; "42"; "120.5"] ", " +:+ newline)
      worldRegistered.
Proof.
  apply (X9_Earlier_passes_over_extra_fields decimal.ParseFloat 1700000000
           "0, 1024, 8192, 15, 3, 42, 120.5, 99, 7" "0"
           ["1024"; "8192"; "15"; "3"; "42"; "120.5"] ["99"; "7"] worldRegistered).
  - vm_compute. reflexivity.
  - reflexivity.
Defined.

Lemma X10_witness :
  Earlier.scrapeLine decimal.ParseFloat 1700000000 ("1, 512, 8192, 10" +:+ newline)
    worldRegistered
  = Panicked "index out of range"
      (writes "1" (zip stats [512; 8192; 10]%float)
         (write lastUpdated (float64_of_int64 1700000000) worldRegistered)).
Proof.
  apply (X10_Earlier_panics_on_short_lines decimal.ParseFloat 1700000000
           "1, 512, 8192, 10" "1" ["512"; "8192"; "10"]).
  - vm_compute. reflexivity.
  - apply Nat.ltb_lt. vm_compute. reflexivity.
  - repeat (constructor; [vm_compute; reflexivity|]). constructor.
Defined.

Lemma X11_witness :
  Earlier.scrapeLine decimal.ParseFloat 1700000000 (exampleLine +:+ newline)
    worldRegistered
  = scrapeLine decimal.ParseFloat 1700000000 (exampleLine +:+ newline) worldRegistered.
Proof.
  apply (X11_revisions_agree_on_full_lines decimal.ParseFloat 1700000000 exampleLine
           worldRegistered).
  vm_compute. reflexivity.
Defined.
